(** * CashX backend: verification and balance-settlement workflow

    A shallow embedding of [backend/server.py]: the request handlers that
    create transactions, verify them (affiliate webhook and admin endpoint)
    and create redemption requests, over a model of the MongoDB collections
    they read and write.

    Modelling choices.
    - A collection is the list of its documents in insertion order;
      [find_one] returns the first document matching the filter and
      [update_one] rewrites the first document matching the filter.
    - Python [float] amounts are exact rationals ([Q]) in the handlers
      below; module [Float] has the same handlers over binary64, for the
      properties that depend on rounding, NaN or the infinities.
    - [uuid.uuid4()] and [datetime.utcnow()] are inputs of the handlers.
    - A handler is a state transformer over the database that returns
      either its response or the [HTTPException] it raised.
    - The webhook payload is a dictionary of scalar JSON values. *)

From Stdlib Require Import QArith Lqa SpecFloat.
From stdpp Require Import base option list strings gmap.

Open Scope string_scope.

(** ** Enumerations *)

Module TransactionStatus.
Inductive t := PENDING | VERIFIED | REJECTED.
End TransactionStatus.

Module VerificationMethod.
Inductive t := WEBHOOK | MANUAL | SELF_REPORTED.
End VerificationMethod.

Module RedemptionMethod.
Inductive t := BANK_TRANSFER | UPI.
End RedemptionMethod.

Module RedemptionStatus.
Inductive t := PENDING | PROCESSING | COMPLETED | FAILED.
End RedemptionStatus.

Definition datetime := Z.
Bind Scope Z_scope with datetime.

(** ** Models *)

Module User.
Record t := mk {
  id : string;
  email : string;
  name : string;
  created_at : datetime;
  cashback_balance : Q
}.
End User.

(** A document of [db.users]: the [User] fields and the password hash. *)
Module UserDoc.
Record t := mk {
  id : string;
  email : string;
  name : string;
  created_at : datetime;
  cashback_balance : Q;
  password : string
}.
End UserDoc.

Module BankAccount.
Record t := mk {
  id : string;
  user_id : string;
  account_holder : string;
  account_number : string;
  ifsc_code : string;
  bank_name : string;
  is_default : bool;
  created_at : datetime
}.
End BankAccount.

Module UPIDetails.
Record t := mk {
  id : string;
  user_id : string;
  upi_id : string;
  is_default : bool;
  created_at : datetime
}.
End UPIDetails.

Module Product.
Record t := mk {
  id : string;
  title : string;
  price : Q;
  category : string;
  cashback_percent : Q
}.
End Product.

Module Transaction.
Record t := mk {
  id : string;
  user_id : string;
  product_id : string;
  amazon_order_id : option string;
  amount : Q;
  cashback_amount : Q;
  status : TransactionStatus.t;
  verification_method : option VerificationMethod.t;
  verified_at : option datetime;
  verification_notes : option string;
  screenshot_url : option string;
  created_at : datetime
}.
End Transaction.

Module TransactionCreate.
Record t := mk {
  product_id : string;
  amazon_order_id : option string;
  amount : Q;
  verification_method : VerificationMethod.t;
  screenshot_url : option string
}.
End TransactionCreate.

Module RedemptionRequest.
Record t := mk {
  id : string;
  user_id : string;
  amount : Q;
  method : RedemptionMethod.t;
  status : RedemptionStatus.t;
  bank_account_id : option string;
  upi_id : option string;
  notes : option string;
  created_at : datetime;
  processed_at : option datetime
}.
End RedemptionRequest.

Module RedemptionRequestCreate.
Record t := mk {
  amount : Q;
  method : RedemptionMethod.t;
  bank_account_id : option string;
  upi_id : option string
}.
End RedemptionRequestCreate.

(** ** JSON values of a request or response body *)

Inductive Json :=
  | JNull
  | JBool (b : bool)
  | JNumber (q : Q)
  | JString (s : string).

(** Python truthiness of [payload.get(key)]: a missing key gives [None]. *)
Definition truthy (v : option Json) : bool :=
  match v with
  | None => false
  | Some JNull => false
  | Some (JBool b) => b
  | Some (JNumber q) => negb (Qeq_bool q 0)
  | Some (JString s) => negb (bool_decide (s = ""))
  end.

(** Truthiness of an [Optional[str]] field. *)
Definition truthy_str (v : option string) : bool :=
  match v with
  | None => false
  | Some s => negb (bool_decide (s = ""))
  end.

(** The equality filter [{"amazon_order_id": v}] on a stored field that is
    a string or null. *)
Definition field_eq (v : Json) (field : option string) : bool :=
  match v, field with
  | JString s, Some s' => bool_decide (s = s')
  | JNull, None => true
  | _, _ => false
  end.

(** [x < y] on amounts. *)
Definition Qltb (x y : Q) : bool := negb (Qle_bool y x).

(** ** The database *)

Record DB := mkDB {
  users : list UserDoc.t;
  products : list Product.t;
  transactions : list Transaction.t;
  bank_accounts : list BankAccount.t;
  upi_details : list UPIDetails.t;
  redemption_requests : list RedemptionRequest.t
}.

Section Collection.
Context {D : Type}.

Fixpoint find_one (q : D -> bool) (c : list D) : option D :=
  match c with
  | [] => None
  | d :: c' => if q d then Some d else find_one q c'
  end.

Fixpoint update_one (q : D -> bool) (upd : D -> D) (c : list D) : list D :=
  match c with
  | [] => []
  | d :: c' => if q d then upd d :: c' else d :: update_one q upd c'
  end.

Definition insert_one (d : D) (c : list D) : list D := c ++ [d].
End Collection.

(** ** Handlers: database state and raised exceptions *)

Inductive Response (A : Type) :=
  | OK (a : A)
  | HTTPException (status_code : nat) (detail : string).
Arguments OK {A} a.
Arguments HTTPException {A} status_code detail.

Definition Handler (A : Type) := DB -> DB * Response A.

Definition ret {A} (a : A) : Handler A := fun db => (db, OK a).

Definition raise {A} (status_code : nat) (detail : string) : Handler A :=
  fun db => (db, HTTPException status_code detail).

Definition bind {A B} (m : Handler A) (k : A -> Handler B) : Handler B :=
  fun db =>
    match m db with
    | (db', OK a) => k a db'
    | (db', HTTPException c d) => (db', HTTPException c d)
    end.

Definition query {A} (f : DB -> A) : Handler A := fun db => (db, OK (f db)).

Definition write (f : DB -> DB) : Handler unit := fun db => (f db, OK tt).

Declare Scope handler_scope.
Delimit Scope handler_scope with handler.
Notation "x <- m ;; k" := (bind m (fun x => k))
  (at level 100, m at next level, right associativity) : handler_scope.
Notation "m ;;; k" := (bind m (fun _ => k))
  (at level 100, right associativity) : handler_scope.
Open Scope handler_scope.

(** *** Field updates *)

Definition set_users (f : list UserDoc.t -> list UserDoc.t) (db : DB) : DB :=
  mkDB (f (users db)) (products db) (transactions db)
       (bank_accounts db) (upi_details db) (redemption_requests db).

Definition set_transactions
    (f : list Transaction.t -> list Transaction.t) (db : DB) : DB :=
  mkDB (users db) (products db) (f (transactions db))
       (bank_accounts db) (upi_details db) (redemption_requests db).

Definition set_redemption_requests
    (f : list RedemptionRequest.t -> list RedemptionRequest.t) (db : DB) : DB :=
  mkDB (users db) (products db) (transactions db)
       (bank_accounts db) (upi_details db) (f (redemption_requests db)).

(** [{"$inc": {"cashback_balance": delta}}] *)
Definition inc_cashback_balance (delta : Q) (u : UserDoc.t) : UserDoc.t :=
  UserDoc.mk (UserDoc.id u) (UserDoc.email u) (UserDoc.name u)
             (UserDoc.created_at u) (UserDoc.cashback_balance u + delta)
             (UserDoc.password u).

(** The [$set] of the webhook: status, verification_method, verified_at. *)
Definition set_webhook_verified (now : datetime) (t : Transaction.t)
    : Transaction.t :=
  Transaction.mk (Transaction.id t) (Transaction.user_id t)
    (Transaction.product_id t) (Transaction.amazon_order_id t)
    (Transaction.amount t) (Transaction.cashback_amount t)
    TransactionStatus.VERIFIED (Some VerificationMethod.WEBHOOK) (Some now)
    (Transaction.verification_notes t) (Transaction.screenshot_url t)
    (Transaction.created_at t).

(** The [$set] of the admin endpoint: [update_data]. *)
Definition set_update_data (status : TransactionStatus.t)
    (notes : option string) (now : datetime) (t : Transaction.t)
    : Transaction.t :=
  Transaction.mk (Transaction.id t) (Transaction.user_id t)
    (Transaction.product_id t) (Transaction.amazon_order_id t)
    (Transaction.amount t) (Transaction.cashback_amount t)
    status (Some VerificationMethod.MANUAL) (Some now)
    notes (Transaction.screenshot_url t)
    (Transaction.created_at t).

(** Filters. *)
Definition user_has_id (i : string) (u : UserDoc.t) : bool :=
  bool_decide (UserDoc.id u = i).
Definition product_has_id (i : string) (p : Product.t) : bool :=
  bool_decide (Product.id p = i).
Definition transaction_has_id (i : string) (t : Transaction.t) : bool :=
  bool_decide (Transaction.id t = i).
Definition transaction_has_order (v : Json) (t : Transaction.t) : bool :=
  field_eq v (Transaction.amazon_order_id t).

(** ** Authentication dependency *)

(** A bearer token, as [jwt.decode] sees it: the [sub] claim of a token
    that decodes, [None] for a token that does not decode or has no [sub]. *)
Definition Token := option string.

Definition User_of_doc (u : UserDoc.t) : User.t :=
  User.mk (UserDoc.id u) (UserDoc.email u) (UserDoc.name u)
          (UserDoc.created_at u) (UserDoc.cashback_balance u).

Definition get_current_user (token : Token) : Handler User.t :=
  match token with
  | None => raise 401 "Invalid authentication credentials"
  | Some user_id =>
      user <- query (fun db => find_one (user_has_id user_id) (users db)) ;;
      match user with
      | None => raise 401 "User not found"
      | Some user => ret (User_of_doc user)
      end
  end.

(** ** Transaction endpoints *)

Definition create_transaction (transaction : TransactionCreate.t)
    (current_user : User.t) (uuid4 : string) (utcnow : datetime)
    : Handler Transaction.t :=
  product <- query (fun db =>
    find_one (product_has_id (TransactionCreate.product_id transaction))
             (products db)) ;;
  match product with
  | None => raise 404 "Product not found"
  | Some product =>
      let cashback_amount :=
        ((TransactionCreate.amount transaction
          * Product.cashback_percent product) / 100)%Q in
      let new_transaction :=
        Transaction.mk uuid4 (User.id current_user)
          (TransactionCreate.product_id transaction)
          (TransactionCreate.amazon_order_id transaction)
          (TransactionCreate.amount transaction)
          cashback_amount
          TransactionStatus.PENDING
          (Some (TransactionCreate.verification_method transaction))
          None None
          (TransactionCreate.screenshot_url transaction)
          utcnow in
      write (set_transactions (insert_one new_transaction)) ;;;
      ret new_transaction
  end.

(** ** Redemption endpoints *)

Definition create_redemption_request (redemption : RedemptionRequestCreate.t)
    (current_user : User.t) (uuid4 : string) (utcnow : datetime)
    : Handler RedemptionRequest.t :=
  if Qltb (User.cashback_balance current_user)
          (RedemptionRequestCreate.amount redemption)
  then raise 400 "Insufficient cashback balance"
  else
  if match RedemptionRequestCreate.method redemption with
     | RedemptionMethod.BANK_TRANSFER =>
         negb (truthy_str (RedemptionRequestCreate.bank_account_id redemption))
     | _ => false
     end
  then raise 400 "Bank account ID is required for bank transfers"
  else
  if match RedemptionRequestCreate.method redemption with
     | RedemptionMethod.UPI =>
         negb (truthy_str (RedemptionRequestCreate.upi_id redemption))
     | _ => false
     end
  then raise 400 "UPI ID is required for UPI transfers"
  else
    let new_redemption :=
      RedemptionRequest.mk uuid4 (User.id current_user)
        (RedemptionRequestCreate.amount redemption)
        (RedemptionRequestCreate.method redemption)
        RedemptionStatus.PENDING
        (RedemptionRequestCreate.bank_account_id redemption)
        (RedemptionRequestCreate.upi_id redemption)
        None utcnow None in
    write (set_users
      (update_one (user_has_id (User.id current_user))
         (inc_cashback_balance (- RedemptionRequestCreate.amount redemption))))
    ;;;
    write (set_redemption_requests (insert_one new_redemption)) ;;;
    ret new_redemption.

(** ** Webhook endpoint for affiliate callbacks *)

Definition amazon_associates_webhook (payload : gmap string Json)
    (utcnow : datetime) : Handler (gmap string Json) :=
  let order_id := payload !! "amazon_order_id" in
  if negb (truthy order_id)
  then raise 400 "Missing order ID"
  else
    let order_id := default JNull order_id in
    transaction <- query (fun db =>
      find_one (transaction_has_order order_id) (transactions db)) ;;
    match transaction with
    | None => ret {[ "status" := JString "No matching transaction found" ]}
    | Some transaction =>
        write (set_transactions
          (update_one (transaction_has_order order_id)
                      (set_webhook_verified utcnow))) ;;;
        write (set_users
          (update_one (user_has_id (Transaction.user_id transaction))
             (inc_cashback_balance (Transaction.cashback_amount transaction))))
        ;;;
        ret (<[ "transaction_id" := JString (Transaction.id transaction) ]>
             {[ "status" := JString "success" ]})
    end.

(** ** Admin verification endpoint *)

Definition admin_verify_transaction (transaction_id : string)
    (status : TransactionStatus.t) (notes : option string)
    (current_user : User.t) (utcnow : datetime)
    : Handler (gmap string Json) :=
  transaction <- query (fun db =>
    find_one (transaction_has_id transaction_id) (transactions db)) ;;
  match transaction with
  | None => raise 404 "Transaction not found"
  | Some transaction =>
      write (set_transactions
        (update_one (transaction_has_id transaction_id)
                    (set_update_data status notes utcnow))) ;;;
      match status with
      | TransactionStatus.VERIFIED =>
          write (set_users
            (update_one (user_has_id (Transaction.user_id transaction))
               (inc_cashback_balance
                  (Transaction.cashback_amount transaction))))
      | _ => ret tt
      end ;;;
      ret {[ "status" := JString "success" ]}
  end.

(** ** Routes: the handlers behind their [Depends(get_current_user)] *)

Definition post_transactions (token : Token)
    (transaction : TransactionCreate.t) (uuid4 : string) (utcnow : datetime)
    : Handler Transaction.t :=
  current_user <- get_current_user token ;;
  create_transaction transaction current_user uuid4 utcnow.

Definition post_redemptions (token : Token)
    (redemption : RedemptionRequestCreate.t) (uuid4 : string)
    (utcnow : datetime) : Handler RedemptionRequest.t :=
  current_user <- get_current_user token ;;
  create_redemption_request redemption current_user uuid4 utcnow.

Definition put_admin_verify (token : Token) (transaction_id : string)
    (status : TransactionStatus.t) (notes : option string)
    (utcnow : datetime) : Handler (gmap string Json) :=
  current_user <- get_current_user token ;;
  admin_verify_transaction transaction_id status notes current_user utcnow.

(** ** Observations on a database *)

(** The cashback balance of the user record that the handlers read and
    update for an id. *)
Definition balance (db : DB) (user_id : string) : option Q :=
  UserDoc.cashback_balance <$> find_one (user_has_id user_id) (users db).

(** The requests that write [db.transactions] or a cashback balance. The
    other routes of the server (registration, login, product listing and
    seeding, bank accounts, UPI details, the GET routes) write neither. *)
Inductive Request :=
  | PostTransactions (token : Token) (transaction : TransactionCreate.t)
      (uuid4 : string) (utcnow : datetime)
  | PostRedemptions (token : Token) (redemption : RedemptionRequestCreate.t)
      (uuid4 : string) (utcnow : datetime)
  | PostWebhook (payload : gmap string Json) (utcnow : datetime)
  | PutAdminVerify (token : Token) (transaction_id : string)
      (status : TransactionStatus.t) (notes : option string)
      (utcnow : datetime).

Definition serve (db : DB) (r : Request) : DB :=
  match r with
  | PostTransactions token transaction uuid4 utcnow =>
      fst (post_transactions token transaction uuid4 utcnow db)
  | PostRedemptions token redemption uuid4 utcnow =>
      fst (post_redemptions token redemption uuid4 utcnow db)
  | PostWebhook payload utcnow =>
      fst (amazon_associates_webhook payload utcnow db)
  | PutAdminVerify token transaction_id status notes utcnow =>
      fst (put_admin_verify token transaction_id status notes utcnow db)
  end.

Definition serve_all (rs : list Request) (db : DB) : DB :=
  fold_left serve rs db.

(** How many stored transactions carry an order id. *)
Definition count_order (order_id : string) (db : DB) : nat :=
  length (filter (fun t => Transaction.amazon_order_id t = Some order_id)
                 (transactions db)).

(** Whether a redemption carries the reference its method needs: the
    conjunction of the two destination checks of the handler. *)
Definition destination_given (redemption : RedemptionRequestCreate.t) : bool :=
  match RedemptionRequestCreate.method redemption with
  | RedemptionMethod.BANK_TRANSFER =>
      truthy_str (RedemptionRequestCreate.bank_account_id redemption)
  | RedemptionMethod.UPI =>
      truthy_str (RedemptionRequestCreate.upi_id redemption)
  end.

(** The detail of the exception raised for a missing reference. *)
Definition destination_required (method : RedemptionMethod.t) : string :=
  match method with
  | RedemptionMethod.BANK_TRANSFER =>
      "Bank account ID is required for bank transfers"
  | RedemptionMethod.UPI => "UPI ID is required for UPI transfers"
  end.

(** IEEE 754 binary64, the format of a Python [float], for checking the
    documented example in the arithmetic the interpreter uses. *)
Module Binary64.
Definition prec : Z := 53.
Definition emax : Z := 1024.
Definition of_Z (z : Z) : spec_float := binary_normalize prec emax z 0 false.
Definition mul : spec_float -> spec_float -> spec_float := SFmul prec emax.
Definition div : spec_float -> spec_float -> spec_float := SFdiv prec emax.
(** [(amount * cashback_percent) / 100] as [create_transaction] computes it. *)
Definition cashback_amount (amount cashback_percent : spec_float) : spec_float :=
  div (mul amount cashback_percent) (of_Z 100).
End Binary64.

(** ** Sample data *)

Module Sample.

Definition alice : UserDoc.t :=
  UserDoc.mk "u-alice" "alice@example.com" "Alice" 0 0 "$2b$hash-a".
Definition bob : UserDoc.t :=
  UserDoc.mk "u-bob" "bob@example.com" "Bob" 0 30 "$2b$hash-b".

Definition echo_dot : Product.t :=
  Product.mk "p-echo" "Amazon Echo Dot (5th Gen)" (4999 # 100) "Electronics" 5.

Definition alice_account : BankAccount.t :=
  BankAccount.mk "acct-alice" "u-alice" "Alice" "000123" "TEST0001"
                 "Test Bank" true 0.

Definition claim (status : TransactionStatus.t) : Transaction.t :=
  Transaction.mk "t-1" "u-alice" "p-echo" (Some "ORDER-1") 100 5 status
    (Some VerificationMethod.SELF_REPORTED) None None None 1.

Definition db_with (status : TransactionStatus.t) : DB :=
  mkDB [alice; bob] [echo_dot] [claim status] [alice_account] [] [].

Definition db_empty : DB := mkDB [alice; bob] [echo_dot] [] [alice_account] [] [].

Definition delivery : gmap string Json :=
  {[ "amazon_order_id" := JString "ORDER-1" ]}.

Definition new_claim : TransactionCreate.t :=
  TransactionCreate.mk "p-echo" (Some "ORDER-1") 100
    VerificationMethod.SELF_REPORTED None.

End Sample.

(** * The remaining routes

    Registration and login, the listing routes, bank accounts, UPI details
    and product seeding, over the same database.

    - [passlib] (hashing, verification) and the field validators of
      pydantic are parameters of the handlers that use them.
    - A JWT is the subject [jwt.decode] reads from it ([Token]); signing
      and expiry are not modelled.
    - The submitted bank account and UPI forms are dictionaries of scalar
      JSON values, like the webhook payload.
    - An exception that no handler catches ([KeyError], a pydantic
      validation error) is an [Unhandled] outcome, kept apart from
      [HTTPException].
    - [get_products] is left out: its result depends on how the driver
      treats the [skip] and [limit] it is given. *)

(** ** Cursors and bulk writes *)

Section Cursor.
Context {D : Type}.

(** [find(query)]: the matching documents, in stored order. *)
Fixpoint find (q : D -> bool) (c : list D) : list D :=
  match c with
  | [] => []
  | d :: c' => if q d then d :: find q c' else find q c'
  end.

(** [cursor.to_list(length)]: at most [length] documents of the cursor. *)
Definition to_list (length : nat) (cursor : list D) : list D :=
  take length cursor.

(** [update_many(query, {"$set": ...})]: every matching document. *)
Fixpoint update_many (q : D -> bool) (upd : D -> D) (c : list D) : list D :=
  match c with
  | [] => []
  | d :: c' => (if q d then upd d else d) :: update_many q upd c'
  end.
End Cursor.

Definition set_products (f : list Product.t -> list Product.t) (db : DB) : DB :=
  mkDB (users db) (f (products db)) (transactions db)
       (bank_accounts db) (upi_details db) (redemption_requests db).

Definition set_bank_accounts
    (f : list BankAccount.t -> list BankAccount.t) (db : DB) : DB :=
  mkDB (users db) (products db) (transactions db)
       (f (bank_accounts db)) (upi_details db) (redemption_requests db).

Definition set_upi_details
    (f : list UPIDetails.t -> list UPIDetails.t) (db : DB) : DB :=
  mkDB (users db) (products db) (transactions db)
       (bank_accounts db) (f (upi_details db)) (redemption_requests db).

(** Whether a response is a raised exception. *)
Definition failed {A} (r : Response A) : bool :=
  match r with
  | OK _ => false
  | HTTPException _ _ => true
  end.

Definition serve_failed (db : DB) (r : Request) : bool :=
  match r with
  | PostTransactions token transaction uuid4 utcnow =>
      failed (snd (post_transactions token transaction uuid4 utcnow db))
  | PostRedemptions token redemption uuid4 utcnow =>
      failed (snd (post_redemptions token redemption uuid4 utcnow db))
  | PostWebhook payload utcnow =>
      failed (snd (amazon_associates_webhook payload utcnow db))
  | PutAdminVerify token transaction_id status notes utcnow =>
      failed (snd (put_admin_verify token transaction_id status notes
                     utcnow db))
  end.

(** A sequence of webhook deliveries. *)
Definition run_webhooks (deliveries : list (gmap string Json * datetime))
    (db : DB) : DB :=
  fold_left (fun db d => fst (amazon_associates_webhook (fst d) (snd d) db))
            deliveries db.

(** A transaction that sits behind another one with the same order id. *)
Definition shadowed (n : nat) (t : Transaction.t) (ts : list Transaction.t)
    : Prop :=
  exists pre post t0,
    ts = (pre ++ t :: post)%list /\ length pre = n /\ t0 ∈ pre
    /\ Transaction.amazon_order_id t0 = Transaction.amazon_order_id t.

(** The fields of a transaction that are written when the claim is
    submitted. *)
Definition claim_facts (t : Transaction.t)
    : string * string * string * option string * Q * Q * option string
      * datetime :=
  (Transaction.id t, Transaction.user_id t, Transaction.product_id t,
   Transaction.amazon_order_id t, Transaction.amount t,
   Transaction.cashback_amount t, Transaction.screenshot_url t,
   Transaction.created_at t).

Definition is_verification (r : Request) : bool :=
  match r with
  | PostWebhook _ _ | PutAdminVerify _ _ _ _ _ => true
  | _ => false
  end.

Definition is_claim (r : Request) : bool :=
  match r with
  | PostTransactions _ _ _ _ => true
  | _ => false
  end.

(** A transaction that has left PENDING carries the time and the method
    of its verification. *)
Definition verification_recorded (t : Transaction.t) : Prop :=
  Transaction.status t <> TransactionStatus.PENDING ->
  is_Some (Transaction.verified_at t)
  /\ (Transaction.verification_method t = Some VerificationMethod.WEBHOOK
      \/ Transaction.verification_method t = Some VerificationMethod.MANUAL).

(** A redemption request as the handler stores it: waiting, unprocessed. *)
Definition awaiting_payout (r : RedemptionRequest.t) : Prop :=
  RedemptionRequest.status r = RedemptionStatus.PENDING
  /\ RedemptionRequest.processed_at r = None.

Definition redemption_of (user_id : string) (r : RedemptionRequest.t) : bool :=
  bool_decide (RedemptionRequest.user_id r = user_id).

(** ** Listing routes *)

Definition transaction_of (user_id : string) (t : Transaction.t) : bool :=
  bool_decide (Transaction.user_id t = user_id).

Definition get_user_transactions (current_user : User.t)
    : Handler (list Transaction.t) :=
  query (fun db =>
    to_list 100 (find (transaction_of (User.id current_user))
                      (transactions db))).

Definition get_redemption_requests (current_user : User.t)
    : Handler (list RedemptionRequest.t) :=
  query (fun db =>
    to_list 100 (find (redemption_of (User.id current_user))
                      (redemption_requests db))).

Definition account_of (user_id : string) (a : BankAccount.t) : bool :=
  bool_decide (BankAccount.user_id a = user_id).

Definition get_bank_accounts (current_user : User.t)
    : Handler (list BankAccount.t) :=
  query (fun db =>
    to_list 10 (find (account_of (User.id current_user))
                     (bank_accounts db))).

Definition upi_of (user_id : string) (u : UPIDetails.t) : bool :=
  bool_decide (UPIDetails.user_id u = user_id).

Definition get_upi_details (current_user : User.t)
    : Handler (list UPIDetails.t) :=
  query (fun db =>
    to_list 10 (find (upi_of (User.id current_user)) (upi_details db))).

Definition get_product (product_id : string) : Handler Product.t :=
  product <- query (fun db =>
    find_one (product_has_id product_id) (products db)) ;;
  match product with
  | None => raise 404 "Product not found"
  | Some product => ret product
  end.

Definition get_current_user_profile (current_user : User.t)
    : Handler User.t :=
  ret current_user.

(** ** Authentication endpoints *)

Module UserCreate.
Record t := mk {
  email : string;
  name : string;
  password : string
}.
End UserCreate.

(** The response model of the login route. *)
Module AccessToken.
Record t := mk {
  access_token : Token;
  token_type : string;
  user : User.t
}.
End AccessToken.

Definition user_has_email (e : string) (u : UserDoc.t) : bool :=
  bool_decide (UserDoc.email u = e).

Definition get_user_by_email (email : string) : Handler (option UserDoc.t) :=
  query (fun db => find_one (user_has_email email) (users db)).

(** [jwt.encode] of [{"sub": ..., "exp": ...}]: the token that [jwt.decode]
    reads back as that subject until it expires. *)
Definition create_access_token (sub : string) : Token := Some sub.

(** [pwd_context.hash] salts at random, so the salt is an input; it and
    [pwd_context.verify] are the library's and stay abstract. *)
Section Passwords.
Variable get_password_hash : string -> string -> string.
Variable verify_password : string -> string -> bool.

Definition register_user (user : UserCreate.t) (uuid4 : string)
    (utcnow : datetime) (salt : string) : Handler User.t :=
  existing_user <- get_user_by_email (UserCreate.email user) ;;
  match existing_user with
  | Some _ => raise 400 "Email already registered"
  | None =>
      let new_user :=
        User.mk uuid4 (UserCreate.email user) (UserCreate.name user)
                utcnow 0 in
      let new_user_dict :=
        UserDoc.mk (User.id new_user) (User.email new_user)
          (User.name new_user) (User.created_at new_user)
          (User.cashback_balance new_user)
          (get_password_hash salt (UserCreate.password user)) in
      write (set_users (insert_one new_user_dict)) ;;;
      ret new_user
  end.

(** [False] is [None]. *)
Definition authenticate_user (email password : string)
    : Handler (option UserDoc.t) :=
  user <- get_user_by_email email ;;
  match user with
  | None => ret None
  | Some user =>
      if negb (verify_password password (UserDoc.password user))
      then ret None
      else ret (Some user)
  end.

Definition login (username password : string) : Handler AccessToken.t :=
  user <- authenticate_user username password ;;
  match user with
  | None => raise 401 "Incorrect email or password"
  | Some user =>
      ret (AccessToken.mk (create_access_token (UserDoc.id user)) "bearer"
                          (User_of_doc user))
  end.
End Passwords.

(** ** Bank account and UPI endpoints *)

(** An exception no handler catches; the client is answered 500. *)
Inductive Unhandled :=
  | KeyError (key : string)
  | ValidationError.

Inductive Outcome (A : Type) :=
  | Returned (a : A)
  | Raised (e : Unhandled).
Arguments Returned {A} a.
Arguments Raised {A} e.

(** [d.get(key, default)] *)
Definition dict_get (d : gmap string Json) (key : string) (default_value : Json)
    : Json :=
  default default_value (d !! key).

Definition unset_default_account (a : BankAccount.t) : BankAccount.t :=
  BankAccount.mk (BankAccount.id a) (BankAccount.user_id a)
    (BankAccount.account_holder a) (BankAccount.account_number a)
    (BankAccount.ifsc_code a) (BankAccount.bank_name a) false
    (BankAccount.created_at a).

Definition unset_default_upi (u : UPIDetails.t) : UPIDetails.t :=
  UPIDetails.mk (UPIDetails.id u) (UPIDetails.user_id u)
    (UPIDetails.upi_id u) false (UPIDetails.created_at u).

(** The field validators of pydantic for [str] and [bool] are the
    library's and stay abstract: [None] is a validation error. *)
Section Pydantic.
Variable str_validator : Json -> option string.
Variable bool_validator : Json -> option bool.

Definition add_bank_account (bank_account : gmap string Json)
    (current_user : User.t) (uuid4 : string) (utcnow : datetime) (db : DB)
    : DB * Outcome BankAccount.t :=
  let db :=
    if truthy (Some (dict_get bank_account "is_default" (JBool true)))
    then set_bank_accounts
           (update_many (account_of (User.id current_user))
                        unset_default_account) db
    else db in
  match bank_account !! "account_holder" with
  | None => (db, Raised (KeyError "account_holder"))
  | Some account_holder =>
  match bank_account !! "account_number" with
  | None => (db, Raised (KeyError "account_number"))
  | Some account_number =>
  match bank_account !! "ifsc_code" with
  | None => (db, Raised (KeyError "ifsc_code"))
  | Some ifsc_code =>
  match bank_account !! "bank_name" with
  | None => (db, Raised (KeyError "bank_name"))
  | Some bank_name =>
  match str_validator account_holder, str_validator account_number,
        str_validator ifsc_code, str_validator bank_name,
        bool_validator (dict_get bank_account "is_default" (JBool true)) with
  | Some account_holder, Some account_number, Some ifsc_code,
    Some bank_name, Some is_default =>
      let new_bank_account :=
        BankAccount.mk uuid4 (User.id current_user) account_holder
          account_number ifsc_code bank_name is_default utcnow in
      (set_bank_accounts (insert_one new_bank_account) db,
       Returned new_bank_account)
  | _, _, _, _, _ => (db, Raised ValidationError)
  end end end end end.

Definition add_upi (upi_details : gmap string Json)
    (current_user : User.t) (uuid4 : string) (utcnow : datetime) (db : DB)
    : DB * Outcome UPIDetails.t :=
  let db :=
    if truthy (Some (dict_get upi_details "is_default" (JBool true)))
    then set_upi_details
           (update_many (upi_of (User.id current_user))
                        unset_default_upi) db
    else db in
  match upi_details !! "upi_id" with
  | None => (db, Raised (KeyError "upi_id"))
  | Some upi_id =>
  match str_validator upi_id,
        bool_validator (dict_get upi_details "is_default" (JBool true)) with
  | Some upi_id, Some is_default =>
      let new_upi :=
        UPIDetails.mk uuid4 (User.id current_user) upi_id is_default
                      utcnow in
      (set_upi_details (insert_one new_upi) db, Returned new_upi)
  | _, _ => (db, Raised ValidationError)
  end end.
End Pydantic.

(** How many default bank accounts, UPI details a user has. *)
Definition default_accounts (db : DB) (user_id : string) : nat :=
  length (find (fun a => account_of user_id a && BankAccount.is_default a)
               (bank_accounts db)).

Definition default_upis (db : DB) (user_id : string) : nat :=
  length (find (fun u => upi_of user_id u && UPIDetails.is_default u)
               (upi_details db)).

(** ** Product seeding *)

(** The sample products, with the fields [Product.t] keeps:
    title, price, category, cashback_percent. *)
Definition sample_products : list (string * Q * string * Q) :=
  [ ("Amazon Echo Dot (5th Gen)", 4999 # 100, "Electronics", 5%Q);
    ("Apple AirPods Pro (2nd Gen)", 24999 # 100, "Electronics", 35 # 10);
    ("Kindle Paperwhite", 13999 # 100, "Electronics", 4%Q);
    ("Samsung 55-Inch QLED 4K TV", 89799 # 100, "Electronics", 2%Q);
    ("Instant Pot Duo Plus 9-in-1", 12995 # 100, "Home & Kitchen", 6%Q);
    ("Fitbit Charge 5", 14995 # 100, "Sports & Outdoors", 55 # 10) ].

(** [uuid4 k] is the identifier drawn for the [k]-th product. *)
Definition seed_products (uuid4 : nat -> string) : Handler (list Product.t) :=
  write (set_products (fun _ => [])) ;;;
  let product_objects :=
    imap (fun k '(title, price, category, cashback_percent) =>
            Product.mk (uuid4 k) title price category cashback_percent)
         sample_products in
  fold_right (fun product rest =>
                write (set_products (insert_one product)) ;;; rest)
             (ret product_objects) product_objects.

(** ** More sample data *)

Module Sample2.

(** A toy password context: the hash is the salt and the password, and a
    password verifies when the hash ends with it. *)
Definition hash (salt password : string) : string :=
  "$" ++ salt ++ "$" ++ password.

Definition verify (password hashed : string) : bool :=
  bool_decide
    (String.substring (String.length hashed - String.length password)
               (String.length password) hashed = password).

(** Toy validators: strings for [str], booleans for [bool]. *)
Definition str_validator (v : Json) : option string :=
  match v with
  | JString s => Some s
  | _ => None
  end.

Definition bool_validator (v : Json) : option bool :=
  match v with
  | JBool b => Some b
  | _ => None
  end.

Definition carol : UserCreate.t :=
  UserCreate.mk "carol@example.com" "Carol" "correct horse".

Definition alice_user : User.t := User_of_doc Sample.alice.
Definition bob_user : User.t := User_of_doc Sample.bob.

Definition account_form (is_default : Json) : gmap string Json :=
  <[ "is_default" := is_default ]>
  (<[ "account_holder" := JString "Alice" ]>
  (<[ "account_number" := JString "000456" ]>
  (<[ "ifsc_code" := JString "TEST0002" ]>
  {[ "bank_name" := JString "Other Bank" ]}))).

Definition second_claim : Transaction.t :=
  Transaction.mk "t-2" "u-bob" "p-echo" (Some "ORDER-1") 100 5
    TransactionStatus.PENDING (Some VerificationMethod.SELF_REPORTED)
    None None None 2.

Definition db_duplicate : DB :=
  mkDB [Sample.alice; Sample.bob] [Sample.echo_dot]
       [Sample.claim TransactionStatus.PENDING; second_claim]
       [Sample.alice_account] [] [].

End Sample2.

(** * Amounts as binary64 floats

    The same four routes with every amount a Python [float]: an IEEE 754
    binary64 value, with the rounding, the infinities and the NaN that the
    interpreter and the [$inc] of the database compute with. The request
    body is parsed by [json.loads], which reads [NaN], [Infinity] and
    [-Infinity] as floats. Everything but the arithmetic is as above. *)

Module Float.

Definition float : Type := spec_float.

Definition nan : float := S754_nan.
Definition zero : float := S754_zero false.
Definition of_Z (z : Z) : float := Binary64.of_Z z.

(** [x + y], [-x], [x * y], [x / y], [x < y], [x <= y] on floats. *)
Definition add (x y : float) : float :=
  SFadd Binary64.prec Binary64.emax x y.
Definition neg (x : float) : float := SFopp x.
Definition mul (x y : float) : float := Binary64.mul x y.
Definition div (x y : float) : float := Binary64.div x y.
Definition lt (x y : float) : bool := SFltb x y.
Definition le (x y : float) : bool := SFleb x y.

(** The rational number a finite float stands for. *)
Definition to_Q (x : float) : option Q :=
  match x with
  | S754_zero _ => Some 0%Q
  | S754_finite s m e =>
      Some (inject_Z (cond_Zopp s (Zpos m)) * Qpower 2 e)%Q
  | _ => None
  end.

(** ** Models *)

Module User.
Record t := mk {
  id : string;
  email : string;
  name : string;
  created_at : datetime;
  cashback_balance : float
}.
End User.

Module UserDoc.
Record t := mk {
  id : string;
  email : string;
  name : string;
  created_at : datetime;
  cashback_balance : float;
  password : string
}.
End UserDoc.

Module Product.
Record t := mk {
  id : string;
  title : string;
  price : float;
  category : string;
  cashback_percent : float
}.
End Product.

Module Transaction.
Record t := mk {
  id : string;
  user_id : string;
  product_id : string;
  amazon_order_id : option string;
  amount : float;
  cashback_amount : float;
  status : TransactionStatus.t;
  verification_method : option VerificationMethod.t;
  verified_at : option datetime;
  verification_notes : option string;
  screenshot_url : option string;
  created_at : datetime
}.
End Transaction.

Module TransactionCreate.
Record t := mk {
  product_id : string;
  amazon_order_id : option string;
  amount : float;
  verification_method : VerificationMethod.t;
  screenshot_url : option string
}.
End TransactionCreate.

Module RedemptionRequest.
Record t := mk {
  id : string;
  user_id : string;
  amount : float;
  method : RedemptionMethod.t;
  status : RedemptionStatus.t;
  bank_account_id : option string;
  upi_id : option string;
  notes : option string;
  created_at : datetime;
  processed_at : option datetime
}.
End RedemptionRequest.

Module RedemptionRequestCreate.
Record t := mk {
  amount : float;
  method : RedemptionMethod.t;
  bank_account_id : option string;
  upi_id : option string
}.
End RedemptionRequestCreate.

(** ** The database and the handlers over it *)

Record DB := mkDB {
  users : list UserDoc.t;
  products : list Product.t;
  transactions : list Transaction.t;
  bank_accounts : list BankAccount.t;
  upi_details : list UPIDetails.t;
  redemption_requests : list RedemptionRequest.t
}.

Definition Handler (A : Type) := DB -> DB * Response A.

Definition ret {A} (a : A) : Handler A := fun db => (db, OK a).

Definition raise {A} (status_code : nat) (detail : string) : Handler A :=
  fun db => (db, HTTPException status_code detail).

Definition bind {A B} (m : Handler A) (k : A -> Handler B) : Handler B :=
  fun db =>
    match m db with
    | (db', OK a) => k a db'
    | (db', HTTPException c d) => (db', HTTPException c d)
    end.

Definition query {A} (f : DB -> A) : Handler A := fun db => (db, OK (f db)).

Definition write (f : DB -> DB) : Handler unit := fun db => (f db, OK tt).

Declare Scope float_handler_scope.
Notation "x <- m ;; k" := (bind m (fun x => k))
  (at level 100, m at next level, right associativity) : float_handler_scope.
Notation "m ;;; k" := (bind m (fun _ => k))
  (at level 100, right associativity) : float_handler_scope.
Local Open Scope float_handler_scope.

Definition set_users (f : list UserDoc.t -> list UserDoc.t) (db : DB) : DB :=
  mkDB (f (users db)) (products db) (transactions db)
       (bank_accounts db) (upi_details db) (redemption_requests db).

Definition set_transactions
    (f : list Transaction.t -> list Transaction.t) (db : DB) : DB :=
  mkDB (users db) (products db) (f (transactions db))
       (bank_accounts db) (upi_details db) (redemption_requests db).

Definition set_redemption_requests
    (f : list RedemptionRequest.t -> list RedemptionRequest.t) (db : DB) : DB :=
  mkDB (users db) (products db) (transactions db)
       (bank_accounts db) (upi_details db) (f (redemption_requests db)).

(** [{"$inc": {"cashback_balance": delta}}]: the sum of two doubles. *)
Definition inc_cashback_balance (delta : float) (u : UserDoc.t) : UserDoc.t :=
  UserDoc.mk (UserDoc.id u) (UserDoc.email u) (UserDoc.name u)
             (UserDoc.created_at u) (add (UserDoc.cashback_balance u) delta)
             (UserDoc.password u).

Definition set_webhook_verified (now : datetime) (t : Transaction.t)
    : Transaction.t :=
  Transaction.mk (Transaction.id t) (Transaction.user_id t)
    (Transaction.product_id t) (Transaction.amazon_order_id t)
    (Transaction.amount t) (Transaction.cashback_amount t)
    TransactionStatus.VERIFIED (Some VerificationMethod.WEBHOOK) (Some now)
    (Transaction.verification_notes t) (Transaction.screenshot_url t)
    (Transaction.created_at t).

Definition set_update_data (status : TransactionStatus.t)
    (notes : option string) (now : datetime) (t : Transaction.t)
    : Transaction.t :=
  Transaction.mk (Transaction.id t) (Transaction.user_id t)
    (Transaction.product_id t) (Transaction.amazon_order_id t)
    (Transaction.amount t) (Transaction.cashback_amount t)
    status (Some VerificationMethod.MANUAL) (Some now)
    notes (Transaction.screenshot_url t)
    (Transaction.created_at t).

Definition user_has_id (i : string) (u : UserDoc.t) : bool :=
  bool_decide (UserDoc.id u = i).
Definition product_has_id (i : string) (p : Product.t) : bool :=
  bool_decide (Product.id p = i).
Definition transaction_has_id (i : string) (t : Transaction.t) : bool :=
  bool_decide (Transaction.id t = i).
Definition transaction_has_order (v : Json) (t : Transaction.t) : bool :=
  field_eq v (Transaction.amazon_order_id t).

Definition User_of_doc (u : UserDoc.t) : User.t :=
  User.mk (UserDoc.id u) (UserDoc.email u) (UserDoc.name u)
          (UserDoc.created_at u) (UserDoc.cashback_balance u).

Definition get_current_user (token : Token) : Handler User.t :=
  match token with
  | None => raise 401 "Invalid authentication credentials"
  | Some user_id =>
      user <- query (fun db => find_one (user_has_id user_id) (users db)) ;;
      match user with
      | None => raise 401 "User not found"
      | Some user => ret (User_of_doc user)
      end
  end.

Definition create_transaction (transaction : TransactionCreate.t)
    (current_user : User.t) (uuid4 : string) (utcnow : datetime)
    : Handler Transaction.t :=
  product <- query (fun db =>
    find_one (product_has_id (TransactionCreate.product_id transaction))
             (products db)) ;;
  match product with
  | None => raise 404 "Product not found"
  | Some product =>
      let cashback_amount :=
        div (mul (TransactionCreate.amount transaction)
                 (Product.cashback_percent product))
            (of_Z 100) in
      let new_transaction :=
        Transaction.mk uuid4 (User.id current_user)
          (TransactionCreate.product_id transaction)
          (TransactionCreate.amazon_order_id transaction)
          (TransactionCreate.amount transaction)
          cashback_amount
          TransactionStatus.PENDING
          (Some (TransactionCreate.verification_method transaction))
          None None
          (TransactionCreate.screenshot_url transaction)
          utcnow in
      write (set_transactions (insert_one new_transaction)) ;;;
      ret new_transaction
  end.

Definition create_redemption_request (redemption : RedemptionRequestCreate.t)
    (current_user : User.t) (uuid4 : string) (utcnow : datetime)
    : Handler RedemptionRequest.t :=
  if lt (User.cashback_balance current_user)
        (RedemptionRequestCreate.amount redemption)
  then raise 400 "Insufficient cashback balance"
  else
  if match RedemptionRequestCreate.method redemption with
     | RedemptionMethod.BANK_TRANSFER =>
         negb (truthy_str (RedemptionRequestCreate.bank_account_id redemption))
     | _ => false
     end
  then raise 400 "Bank account ID is required for bank transfers"
  else
  if match RedemptionRequestCreate.method redemption with
     | RedemptionMethod.UPI =>
         negb (truthy_str (RedemptionRequestCreate.upi_id redemption))
     | _ => false
     end
  then raise 400 "UPI ID is required for UPI transfers"
  else
    let new_redemption :=
      RedemptionRequest.mk uuid4 (User.id current_user)
        (RedemptionRequestCreate.amount redemption)
        (RedemptionRequestCreate.method redemption)
        RedemptionStatus.PENDING
        (RedemptionRequestCreate.bank_account_id redemption)
        (RedemptionRequestCreate.upi_id redemption)
        None utcnow None in
    write (set_users
      (update_one (user_has_id (User.id current_user))
         (inc_cashback_balance
            (neg (RedemptionRequestCreate.amount redemption)))))
    ;;;
    write (set_redemption_requests (insert_one new_redemption)) ;;;
    ret new_redemption.

Definition amazon_associates_webhook (payload : gmap string Json)
    (utcnow : datetime) : Handler (gmap string Json) :=
  let order_id := payload !! "amazon_order_id" in
  if negb (truthy order_id)
  then raise 400 "Missing order ID"
  else
    let order_id := default JNull order_id in
    transaction <- query (fun db =>
      find_one (transaction_has_order order_id) (transactions db)) ;;
    match transaction with
    | None => ret {[ "status" := JString "No matching transaction found" ]}
    | Some transaction =>
        write (set_transactions
          (update_one (transaction_has_order order_id)
                      (set_webhook_verified utcnow))) ;;;
        write (set_users
          (update_one (user_has_id (Transaction.user_id transaction))
             (inc_cashback_balance (Transaction.cashback_amount transaction))))
        ;;;
        ret (<[ "transaction_id" := JString (Transaction.id transaction) ]>
             {[ "status" := JString "success" ]})
    end.

Definition admin_verify_transaction (transaction_id : string)
    (status : TransactionStatus.t) (notes : option string)
    (current_user : User.t) (utcnow : datetime)
    : Handler (gmap string Json) :=
  transaction <- query (fun db =>
    find_one (transaction_has_id transaction_id) (transactions db)) ;;
  match transaction with
  | None => raise 404 "Transaction not found"
  | Some transaction =>
      write (set_transactions
        (update_one (transaction_has_id transaction_id)
                    (set_update_data status notes utcnow))) ;;;
      match status with
      | TransactionStatus.VERIFIED =>
          write (set_users
            (update_one (user_has_id (Transaction.user_id transaction))
               (inc_cashback_balance
                  (Transaction.cashback_amount transaction))))
      | _ => ret tt
      end ;;;
      ret {[ "status" := JString "success" ]}
  end.

(** The routes, behind [Depends(get_current_user)]. *)

Definition post_transactions (token : Token)
    (transaction : TransactionCreate.t) (uuid4 : string) (utcnow : datetime)
    : Handler Transaction.t :=
  current_user <- get_current_user token ;;
  create_transaction transaction current_user uuid4 utcnow.

Definition post_redemptions (token : Token)
    (redemption : RedemptionRequestCreate.t) (uuid4 : string)
    (utcnow : datetime) : Handler RedemptionRequest.t :=
  current_user <- get_current_user token ;;
  create_redemption_request redemption current_user uuid4 utcnow.

Definition put_admin_verify (token : Token) (transaction_id : string)
    (status : TransactionStatus.t) (notes : option string)
    (utcnow : datetime) : Handler (gmap string Json) :=
  current_user <- get_current_user token ;;
  admin_verify_transaction transaction_id status notes current_user utcnow.

(** ** Observations *)

Definition balance (db : DB) (user_id : string) : option float :=
  UserDoc.cashback_balance <$> find_one (user_has_id user_id) (users db).

Definition destination_given (redemption : RedemptionRequestCreate.t) : bool :=
  match RedemptionRequestCreate.method redemption with
  | RedemptionMethod.BANK_TRANSFER =>
      truthy_str (RedemptionRequestCreate.bank_account_id redemption)
  | RedemptionMethod.UPI =>
      truthy_str (RedemptionRequestCreate.upi_id redemption)
  end.

Inductive Request :=
  | PostTransactions (token : Token) (transaction : TransactionCreate.t)
      (uuid4 : string) (utcnow : datetime)
  | PostRedemptions (token : Token) (redemption : RedemptionRequestCreate.t)
      (uuid4 : string) (utcnow : datetime)
  | PostWebhook (payload : gmap string Json) (utcnow : datetime)
  | PutAdminVerify (token : Token) (transaction_id : string)
      (status : TransactionStatus.t) (notes : option string)
      (utcnow : datetime).

Definition serve (db : DB) (r : Request) : DB :=
  match r with
  | PostTransactions token transaction uuid4 utcnow =>
      fst (post_transactions token transaction uuid4 utcnow db)
  | PostRedemptions token redemption uuid4 utcnow =>
      fst (post_redemptions token redemption uuid4 utcnow db)
  | PostWebhook payload utcnow =>
      fst (amazon_associates_webhook payload utcnow db)
  | PutAdminVerify token transaction_id status notes utcnow =>
      fst (put_admin_verify token transaction_id status notes utcnow db)
  end.

Definition serve_all (rs : list Request) (db : DB) : DB :=
  fold_left serve rs db.

(** The identifier and cashback amount of each stored transaction. *)
Definition cashback_ledger (db : DB) : list (string * float) :=
  map (fun t => (Transaction.id t, Transaction.cashback_amount t))
      (transactions db).

(** ** Sample data *)

Definition bob : UserDoc.t :=
  UserDoc.mk "u-bob" "bob@example.com" "Bob" 0 (of_Z 30) "$2b$hash-b".

(** The float 49.99: the double nearest to 4999/100. *)
Definition price_49_99 : float := div (of_Z 4999) (of_Z 100).

Definition echo_dot : Product.t :=
  Product.mk "p-echo" "Amazon Echo Dot (5th Gen)" price_49_99 "Electronics"
             (of_Z 5).

Definition db0 : DB := mkDB [bob] [echo_dot] [] [] [] [].

Definition upi_redemption (amount : float) : RedemptionRequestCreate.t :=
  RedemptionRequestCreate.mk amount RedemptionMethod.UPI None
                             (Some "bob@upi").

Definition claim_of (amount : float) : TransactionCreate.t :=
  TransactionCreate.mk "p-echo" (Some "ORDER-1") amount
    VerificationMethod.SELF_REPORTED None.

End Float.

(** * Properties *)

(** ** Collections *)

Section CollectionFacts.
Context {D : Type}.
Implicit Types (q : D -> bool) (upd : D -> D) (c : list D).

Lemma find_one_update_one q upd c :
  (forall d, q d = true -> q (upd d) = true) ->
  find_one q (update_one q upd c) = upd <$> find_one q c.
Proof.
  intros Hq. induction c as [|d c IH]; simpl; [done|].
  destruct (q d) eqn:E; simpl.
  - by rewrite (Hq d E).
  - by rewrite E.
Qed.

Lemma find_one_update_one_other q q' upd c :
  (forall d, q d = true -> q' d = false) ->
  (forall d, q' (upd d) = q' d) ->
  find_one q' (update_one q upd c) = find_one q' c.
Proof.
  intros Hdisj Hupd. induction c as [|d c IH]; simpl; [done|].
  destruct (q d) eqn:E; simpl.
  - by rewrite Hupd, (Hdisj d E).
  - by rewrite IH.
Qed.

Lemma map_update_one {E} (f : D -> E) q upd c :
  (forall d, f (upd d) = f d) -> map f (update_one q upd c) = map f c.
Proof.
  intros Hf. induction c as [|d c IH]; simpl; [done|].
  destruct (q d); simpl; by rewrite ?Hf, ?IH.
Qed.

End CollectionFacts.

(** ** Amount comparison *)

Lemma Qltb_true x y : Qltb x y = true <-> (x < y)%Q.
Proof.
  unfold Qltb. rewrite negb_true_iff. split.
  - intros H. apply Qnot_le_lt. intros Hle.
    apply Qle_bool_iff in Hle. congruence.
  - intros H. destruct (Qle_bool y x) eqn:E; [|done].
    apply Qle_bool_iff in E. lra.
Qed.

Lemma Qltb_false x y : Qltb x y = false <-> (y <= x)%Q.
Proof.
  unfold Qltb. rewrite negb_false_iff. apply Qle_bool_iff.
Qed.

(** ** Balances under [$inc] *)

Lemma balance_inc_same db i delta b :
  balance db i = Some b ->
  balance (set_users (update_one (user_has_id i)
                        (inc_cashback_balance delta)) db) i
  = Some (b + delta)%Q.
Proof.
  unfold balance. simpl. intros H.
  rewrite find_one_update_one by done.
  destruct (find_one (user_has_id i) (users db)) as [u|]; simpl in *; [|done].
  by inversion H.
Qed.

Lemma balance_inc_other db i j delta :
  i <> j ->
  balance (set_users (update_one (user_has_id j)
                        (inc_cashback_balance delta)) db) i
  = balance db i.
Proof.
  unfold balance. simpl. intros Hne.
  rewrite find_one_update_one_other; [done| |done].
  intros d. unfold user_has_id. rewrite !bool_decide_eq_true.
  intros ->. apply bool_decide_eq_false. congruence.
Qed.

Lemma balance_set_redemption_requests db f i :
  balance (set_redemption_requests f db) i = balance db i.
Proof. done. Qed.

(** ** What each handler does on each path *)

Lemma get_current_user_found db user_id u :
  find_one (user_has_id user_id) (users db) = Some u ->
  get_current_user (Some user_id) db = (db, OK (User_of_doc u)).
Proof. intros H. unfold get_current_user, bind, query, ret. by rewrite H. Qed.

Lemma get_current_user_state token db : fst (get_current_user token db) = db.
Proof.
  destruct token as [user_id|]; [|done].
  unfold get_current_user, bind, query. simpl.
  by destruct (find_one _ _).
Qed.

Lemma webhook_missing payload utcnow db :
  truthy (payload !! "amazon_order_id") = false ->
  amazon_associates_webhook payload utcnow db
  = (db, HTTPException 400 "Missing order ID").
Proof. intros H. unfold amazon_associates_webhook. by rewrite H. Qed.

Lemma webhook_no_match payload utcnow db v :
  payload !! "amazon_order_id" = Some v ->
  truthy (Some v) = true ->
  find_one (transaction_has_order v) (transactions db) = None ->
  amazon_associates_webhook payload utcnow db
  = (db, OK {[ "status" := JString "No matching transaction found" ]}).
Proof.
  intros Hv Ht Hf. unfold amazon_associates_webhook.
  rewrite Hv, Ht. simpl. unfold bind, query. by rewrite Hf.
Qed.

Lemma webhook_match payload utcnow db v t :
  payload !! "amazon_order_id" = Some v ->
  truthy (Some v) = true ->
  find_one (transaction_has_order v) (transactions db) = Some t ->
  amazon_associates_webhook payload utcnow db
  = (set_users
       (update_one (user_has_id (Transaction.user_id t))
          (inc_cashback_balance (Transaction.cashback_amount t)))
       (set_transactions
          (update_one (transaction_has_order v) (set_webhook_verified utcnow))
          db),
     OK (<[ "transaction_id" := JString (Transaction.id t) ]>
         {[ "status" := JString "success" ]})).
Proof.
  intros Hv Ht Hf. unfold amazon_associates_webhook.
  rewrite Hv, Ht. simpl. unfold bind, query. by rewrite Hf.
Qed.

Lemma admin_not_found transaction_id status notes current_user utcnow db :
  find_one (transaction_has_id transaction_id) (transactions db) = None ->
  admin_verify_transaction transaction_id status notes current_user utcnow db
  = (db, HTTPException 404 "Transaction not found").
Proof.
  intros Hf. unfold admin_verify_transaction, bind, query. by rewrite Hf.
Qed.

Lemma admin_found transaction_id status notes current_user utcnow db t :
  find_one (transaction_has_id transaction_id) (transactions db) = Some t ->
  admin_verify_transaction transaction_id status notes current_user utcnow db
  = (match status with
     | TransactionStatus.VERIFIED =>
         set_users
           (update_one (user_has_id (Transaction.user_id t))
              (inc_cashback_balance (Transaction.cashback_amount t)))
     | _ => fun db => db
     end
       (set_transactions
          (update_one (transaction_has_id transaction_id)
             (set_update_data status notes utcnow)) db),
     OK {[ "status" := JString "success" ]}).
Proof.
  intros Hf. unfold admin_verify_transaction, bind, query. rewrite Hf.
  by destruct status.
Qed.

(** The transaction a verification finds is found again afterwards, with
    the [$set] applied. *)
Lemma webhook_refind v utcnow db t f :
  find_one (transaction_has_order v) (transactions db) = Some t ->
  find_one (transaction_has_order v)
    (transactions
       (set_users f
          (set_transactions
             (update_one (transaction_has_order v)
                (set_webhook_verified utcnow)) db)))
  = Some (set_webhook_verified utcnow t).
Proof.
  intros Hf. simpl. rewrite find_one_update_one by done. by rewrite Hf.
Qed.

Lemma admin_refind transaction_id status notes utcnow db t :
  find_one (transaction_has_id transaction_id) (transactions db) = Some t ->
  find_one (transaction_has_id transaction_id)
    (update_one (transaction_has_id transaction_id)
       (set_update_data status notes utcnow) (transactions db))
  = Some (set_update_data status notes utcnow t).
Proof.
  intros Hf. rewrite find_one_update_one by done. by rewrite Hf.
Qed.

Lemma find_one_None {D} (q : D -> bool) (c : list D) :
  find_one q c = None <-> (forall d, d ∈ c -> q d = false).
Proof.
  induction c as [|d c IH]; simpl.
  - split; [|done]. intros _ d Hd. by apply elem_of_nil in Hd.
  - destruct (q d) eqn:E.
    + split; [done|]. intros H. specialize (H d (list_elem_of_here _ _)).
      congruence.
    + rewrite IH. split.
      * intros H d' Hd'. apply elem_of_cons in Hd' as [->|Hd']; auto.
      * intros H d' Hd'. apply H. by apply list_elem_of_further.
Qed.

(** One webhook delivery that finds [t]: the owner is credited and the
    same transaction, now VERIFIED, is what the next delivery finds. *)
Lemma webhook_credits payload utcnow db v t b :
  payload !! "amazon_order_id" = Some v ->
  truthy (Some v) = true ->
  find_one (transaction_has_order v) (transactions db) = Some t ->
  balance db (Transaction.user_id t) = Some b ->
  let db' := fst (amazon_associates_webhook payload utcnow db) in
  balance db' (Transaction.user_id t)
    = Some (b + Transaction.cashback_amount t)%Q
  /\ find_one (transaction_has_order v) (transactions db')
    = Some (set_webhook_verified utcnow t).
Proof.
  intros Hv Ht Hf Hb. rewrite (webhook_match _ _ _ _ _ Hv Ht Hf). simpl fst.
  split.
  - by apply balance_inc_same.
  - by apply webhook_refind.
Qed.

(** One manual verification that finds [t]. *)
Lemma admin_credits transaction_id status notes current_user utcnow db t b :
  find_one (transaction_has_id transaction_id) (transactions db) = Some t ->
  balance db (Transaction.user_id t) = Some b ->
  let db' := fst (admin_verify_transaction transaction_id status notes
                    current_user utcnow db) in
  balance db' (Transaction.user_id t)
    = Some (match status with
            | TransactionStatus.VERIFIED =>
                (b + Transaction.cashback_amount t)%Q
            | _ => b
            end)
  /\ find_one (transaction_has_id transaction_id) (transactions db')
    = Some (set_update_data status notes utcnow t).
Proof.
  intros Hf Hb. rewrite (admin_found _ _ _ _ _ _ _ Hf). simpl fst.
  split.
  - destruct status; try done. by apply balance_inc_same.
  - destruct status; simpl; by apply admin_refind.
Qed.

(** ** Webhook deliveries that change nothing *)

(** C9: a webhook delivery whose order id matches no stored transaction
    answers with the soft "No matching transaction found" response, not an
    exception, and leaves the whole database (every transaction, every
    balance) as it was. *)
Theorem webhook_unmatched_order_is_soft_no_match
    (payload : gmap string Json) (utcnow : datetime) (db : DB) (v : Json) :
  payload !! "amazon_order_id" = Some v ->
  truthy (Some v) = true ->
  (forall t, t ∈ transactions db -> transaction_has_order v t = false) ->
  amazon_associates_webhook payload utcnow db
  = (db, OK {[ "status" := JString "No matching transaction found" ]}).
Proof.
  intros Hv Ht Hnone. apply (webhook_no_match _ _ _ v); try done.
  by apply find_one_None.
Qed.

Lemma webhook_unmatched_order_witness :
  amazon_associates_webhook {[ "amazon_order_id" := JString "ORDER-9" ]} 7
    (Sample.db_with TransactionStatus.PENDING)
  = (Sample.db_with TransactionStatus.PENDING,
     OK {[ "status" := JString "No matching transaction found" ]}).
Proof.
  apply (webhook_unmatched_order_is_soft_no_match _ _ _ (JString "ORDER-9")).
  - reflexivity.
  - reflexivity.
  - intros t Ht. apply list_elem_of_singleton in Ht. subst t. reflexivity.
Defined.

(** C10: a webhook delivery whose payload has no [amazon_order_id] field
    raises HTTP 400 "Missing order ID" (not the soft response) and leaves
    the database as it was. *)
Theorem webhook_without_order_id_is_rejected
    (payload : gmap string Json) (utcnow : datetime) (db : DB) :
  payload !! "amazon_order_id" = None ->
  amazon_associates_webhook payload utcnow db
  = (db, HTTPException 400 "Missing order ID").
Proof. intros H. apply webhook_missing. by rewrite H. Qed.

Lemma webhook_without_order_id_witness :
  amazon_associates_webhook {[ "order" := JString "ORDER-1" ]} 7
    (Sample.db_with TransactionStatus.PENDING)
  = (Sample.db_with TransactionStatus.PENDING,
     HTTPException 400 "Missing order ID").
Proof.
  apply webhook_without_order_id_is_rejected. reflexivity.
Defined.

(** ** Repeated verification *)

(** C1 fails on the code: the transaction is VERIFIED after the first
    delivery, and the second delivery of the same webhook credits the
    5 of cashback again (balance 0, then 5, then 10); a duplicate manual
    VERIFIED call does the same. *)
Lemma second_verification_credits_again :
  let db0 := Sample.db_with TransactionStatus.PENDING in
  let db1 := fst (amazon_associates_webhook Sample.delivery 7 db0) in
  let db2 := fst (amazon_associates_webhook Sample.delivery 8 db1) in
  let admin := User_of_doc Sample.bob in
  let db1' := fst (admin_verify_transaction "t-1" TransactionStatus.VERIFIED
                     None admin 7 db0) in
  let db2' := fst (admin_verify_transaction "t-1" TransactionStatus.VERIFIED
                     None admin 8 db1') in
  balance db0 "u-alice" = Some 0%Q
  /\ Transaction.status <$> find_one (transaction_has_id "t-1") (transactions db1)
     = Some TransactionStatus.VERIFIED
  /\ balance db1 "u-alice" = Some 5%Q
  /\ balance db2 "u-alice" = Some 10%Q
  /\ Transaction.status <$> find_one (transaction_has_id "t-1") (transactions db1')
     = Some TransactionStatus.VERIFIED
  /\ balance db1' "u-alice" = Some 5%Q
  /\ balance db2' "u-alice" = Some 10%Q.
Proof. vm_compute. repeat split. Qed.

(** C1, as the code has it: every verification that finds a stored
    transaction (a webhook delivery for its order id, a manual call with
    VERIFIED) adds its cashback amount to the owner's balance, whatever the
    transaction's status; two verifications in a row credit it twice. *)
Theorem every_verification_credits :
  (forall (payload : gmap string Json) (now1 now2 : datetime) (db : DB)
          (v : Json) (t : Transaction.t) (b : Q),
     payload !! "amazon_order_id" = Some v ->
     truthy (Some v) = true ->
     find_one (transaction_has_order v) (transactions db) = Some t ->
     balance db (Transaction.user_id t) = Some b ->
     let db1 := fst (amazon_associates_webhook payload now1 db) in
     let db2 := fst (amazon_associates_webhook payload now2 db1) in
     balance db1 (Transaction.user_id t)
       = Some (b + Transaction.cashback_amount t)%Q
     /\ balance db2 (Transaction.user_id t)
       = Some (b + Transaction.cashback_amount t
                 + Transaction.cashback_amount t)%Q)
  /\
  (forall (transaction_id : string) (notes1 notes2 : option string)
          (admin1 admin2 : User.t) (now1 now2 : datetime) (db : DB)
          (t : Transaction.t) (b : Q),
     find_one (transaction_has_id transaction_id) (transactions db) = Some t ->
     balance db (Transaction.user_id t) = Some b ->
     let db1 := fst (admin_verify_transaction transaction_id
                       TransactionStatus.VERIFIED notes1 admin1 now1 db) in
     let db2 := fst (admin_verify_transaction transaction_id
                       TransactionStatus.VERIFIED notes2 admin2 now2 db1) in
     balance db1 (Transaction.user_id t)
       = Some (b + Transaction.cashback_amount t)%Q
     /\ balance db2 (Transaction.user_id t)
       = Some (b + Transaction.cashback_amount t
                 + Transaction.cashback_amount t)%Q).
Proof.
  split.
  - intros payload now1 now2 db v t b Hv Ht Hf Hb db1 db2.
    destruct (webhook_credits payload now1 db v t b Hv Ht Hf Hb)
      as [Hb1 Hf1].
    split; [exact Hb1|].
    destruct (webhook_credits payload now2 db1 v _ _ Hv Ht Hf1 Hb1)
      as [Hb2 _].
    exact Hb2.
  - intros transaction_id notes1 notes2 admin1 admin2 now1 now2 db t b
      Hf Hb db1 db2.
    destruct (admin_credits transaction_id TransactionStatus.VERIFIED notes1
                admin1 now1 db t b Hf Hb) as [Hb1 Hf1].
    split; [exact Hb1|].
    destruct (admin_credits transaction_id TransactionStatus.VERIFIED notes2
                admin2 now2 db1 _ _ Hf1 Hb1) as [Hb2 _].
    exact Hb2.
Qed.

Lemma every_verification_credits_witness :
  let db0 := Sample.db_with TransactionStatus.PENDING in
  let admin := User_of_doc Sample.bob in
  balance (fst (amazon_associates_webhook Sample.delivery 8
                  (fst (amazon_associates_webhook Sample.delivery 7 db0))))
          "u-alice"
    = Some (0 + 5 + 5)%Q
  /\ balance (fst (admin_verify_transaction "t-1" TransactionStatus.VERIFIED
                     None admin 8
                     (fst (admin_verify_transaction "t-1"
                             TransactionStatus.VERIFIED None admin 7 db0))))
             "u-alice"
    = Some (0 + 5 + 5)%Q.
Proof.
  destruct every_verification_credits as [Hw Ha]. split.
  - apply (Hw Sample.delivery 7%Z 8%Z (Sample.db_with TransactionStatus.PENDING)
              (JString "ORDER-1") (Sample.claim TransactionStatus.PENDING) 0%Q);
      reflexivity.
  - apply (Ha "t-1" None None (User_of_doc Sample.bob) (User_of_doc Sample.bob)
              7%Z 8%Z (Sample.db_with TransactionStatus.PENDING)
              (Sample.claim TransactionStatus.PENDING) 0%Q);
      reflexivity.
Defined.

(** ** Status transitions *)

(** C2 fails on the code: a manual VERIFIED call on a REJECTED transaction
    is answered with success (no 409), the status becomes VERIFIED and the
    owner's balance goes from 0 to 5; a manual REJECTED call on a VERIFIED
    transaction and a webhook delivery for a REJECTED one change the status
    as well. *)
Lemma rejected_transaction_is_verified_manually :
  let admin := User_of_doc Sample.bob in
  let db0 := Sample.db_with TransactionStatus.REJECTED in
  let r := admin_verify_transaction "t-1" TransactionStatus.VERIFIED None
             admin 7 db0 in
  let r' := admin_verify_transaction "t-1" TransactionStatus.REJECTED None
              admin 7 (Sample.db_with TransactionStatus.VERIFIED) in
  let r'' := amazon_associates_webhook Sample.delivery 7 db0 in
  snd r = OK {[ "status" := JString "success" ]}
  /\ Transaction.status <$> find_one (transaction_has_id "t-1")
                              (transactions (fst r))
     = Some TransactionStatus.VERIFIED
  /\ balance db0 "u-alice" = Some 0%Q
  /\ balance (fst r) "u-alice" = Some 5%Q
  /\ Transaction.status <$> find_one (transaction_has_id "t-1")
                              (transactions (fst r'))
     = Some TransactionStatus.REJECTED
  /\ Transaction.status <$> find_one (transaction_has_id "t-1")
                              (transactions (fst r''))
     = Some TransactionStatus.VERIFIED.
Proof. vm_compute. repeat split. Qed.

(** C2, as the code has it: no status is terminal. A manual verification
    of a stored transaction succeeds whatever its current status, sets the
    status to the requested one and credits the owner exactly when the
    requested status is VERIFIED; a webhook delivery that finds a
    transaction succeeds and sets its status to VERIFIED. *)
Theorem verification_overwrites_any_status :
  (forall (transaction_id : string) (status : TransactionStatus.t)
          (notes : option string) (admin : User.t) (utcnow : datetime)
          (db : DB) (t : Transaction.t) (b : Q),
     find_one (transaction_has_id transaction_id) (transactions db) = Some t ->
     balance db (Transaction.user_id t) = Some b ->
     let r := admin_verify_transaction transaction_id status notes admin
                utcnow db in
     snd r = OK {[ "status" := JString "success" ]}
     /\ Transaction.status <$> find_one (transaction_has_id transaction_id)
                                 (transactions (fst r))
        = Some status
     /\ balance (fst r) (Transaction.user_id t)
        = Some (match status with
                | TransactionStatus.VERIFIED =>
                    (b + Transaction.cashback_amount t)%Q
                | _ => b
                end))
  /\
  (forall (payload : gmap string Json) (utcnow : datetime) (db : DB)
          (v : Json) (t : Transaction.t),
     payload !! "amazon_order_id" = Some v ->
     truthy (Some v) = true ->
     find_one (transaction_has_order v) (transactions db) = Some t ->
     let r := amazon_associates_webhook payload utcnow db in
     snd r = OK (<[ "transaction_id" := JString (Transaction.id t) ]>
                 {[ "status" := JString "success" ]})
     /\ Transaction.status <$> find_one (transaction_has_order v)
                                 (transactions (fst r))
        = Some TransactionStatus.VERIFIED).
Proof.
  split.
  - intros transaction_id status notes admin utcnow db t b Hf Hb r.
    destruct (admin_credits transaction_id status notes admin utcnow db t b
                Hf Hb) as [Hb' Hf'].
    fold r in Hb', Hf'. repeat split.
    + unfold r. by rewrite (admin_found _ _ _ _ _ _ _ Hf).
    + by rewrite Hf'.
    + exact Hb'.
  - intros payload utcnow db v t Hv Ht Hf r. unfold r.
    rewrite (webhook_match _ _ _ _ _ Hv Ht Hf). split; [done|].
    simpl fst. by rewrite (webhook_refind _ _ _ _ _ Hf).
Qed.

Lemma verification_overwrites_any_status_witness :
  let admin := User_of_doc Sample.bob in
  let db0 := Sample.db_with TransactionStatus.REJECTED in
  (Transaction.status <$> find_one (transaction_has_id "t-1")
     (transactions (fst (admin_verify_transaction "t-1"
        TransactionStatus.VERIFIED None admin 7 db0)))
   = Some TransactionStatus.VERIFIED)
  /\ (Transaction.status <$> find_one
        (transaction_has_order (JString "ORDER-1"))
        (transactions (fst (amazon_associates_webhook Sample.delivery 7 db0)))
      = Some TransactionStatus.VERIFIED).
Proof.
  destruct verification_overwrites_any_status as [Ha Hw]. split.
  - apply (Ha "t-1" TransactionStatus.VERIFIED None (User_of_doc Sample.bob)
              7%Z (Sample.db_with TransactionStatus.REJECTED)
              (Sample.claim TransactionStatus.REJECTED) 0%Q);
      reflexivity.
  - apply (Hw Sample.delivery 7%Z (Sample.db_with TransactionStatus.REJECTED)
              (JString "ORDER-1") (Sample.claim TransactionStatus.REJECTED));
      reflexivity.
Defined.

(** ** Redemption requests *)

Lemma find_one_Some {D} (q : D -> bool) (c : list D) (d : D) :
  find_one q c = Some d -> q d = true /\ d ∈ c.
Proof.
  induction c as [|d' c IH]; simpl; [done|].
  destruct (q d') eqn:E.
  - intros [= ->]. split; [done|]. apply list_elem_of_here.
  - intros H. destruct (IH H). split; [done|]. by apply list_elem_of_further.
Qed.

Lemma redemption_insufficient redemption current_user uuid4 utcnow db :
  (User.cashback_balance current_user
   < RedemptionRequestCreate.amount redemption)%Q ->
  create_redemption_request redemption current_user uuid4 utcnow db
  = (db, HTTPException 400 "Insufficient cashback balance").
Proof.
  intros H. apply Qltb_true in H. unfold create_redemption_request.
  by rewrite H.
Qed.

Lemma redemption_no_destination redemption current_user uuid4 utcnow db :
  (RedemptionRequestCreate.amount redemption
   <= User.cashback_balance current_user)%Q ->
  destination_given redemption = false ->
  create_redemption_request redemption current_user uuid4 utcnow db
  = (db, HTTPException 400
           (destination_required (RedemptionRequestCreate.method redemption))).
Proof.
  intros H Hd. apply Qltb_false in H.
  unfold create_redemption_request, destination_given in *. rewrite H.
  destruct (RedemptionRequestCreate.method redemption); by rewrite Hd.
Qed.

Lemma redemption_accepted redemption current_user uuid4 utcnow db :
  (RedemptionRequestCreate.amount redemption
   <= User.cashback_balance current_user)%Q ->
  destination_given redemption = true ->
  exists new_redemption,
    create_redemption_request redemption current_user uuid4 utcnow db
    = (set_redemption_requests (insert_one new_redemption)
         (set_users
            (update_one (user_has_id (User.id current_user))
               (inc_cashback_balance
                  (- RedemptionRequestCreate.amount redemption))) db),
       OK new_redemption)
    /\ new_redemption
       = RedemptionRequest.mk uuid4 (User.id current_user)
           (RedemptionRequestCreate.amount redemption)
           (RedemptionRequestCreate.method redemption)
           RedemptionStatus.PENDING
           (RedemptionRequestCreate.bank_account_id redemption)
           (RedemptionRequestCreate.upi_id redemption)
           None utcnow None.
Proof.
  intros H Hd. apply Qltb_false in H. eexists. split; [|reflexivity].
  unfold create_redemption_request, destination_given in *. rewrite H.
  destruct (RedemptionRequestCreate.method redemption); by rewrite Hd.
Qed.

(** The three paths of the handler are the only ones. *)
Lemma redemption_paths redemption current_user :
  (User.cashback_balance current_user
   < RedemptionRequestCreate.amount redemption)%Q
  \/ ((RedemptionRequestCreate.amount redemption
       <= User.cashback_balance current_user)%Q
      /\ destination_given redemption = false)
  \/ ((RedemptionRequestCreate.amount redemption
       <= User.cashback_balance current_user)%Q
      /\ destination_given redemption = true).
Proof.
  destruct (Qlt_le_dec (User.cashback_balance current_user)
              (RedemptionRequestCreate.amount redemption)) as [Hlt|Hle];
    [by left|right].
  destruct (destination_given redemption); [right|left]; done.
Qed.

(** The route reads the caller's record, so the balance it compares is the
    stored one. *)
Lemma post_redemptions_as_user user_id redemption uuid4 utcnow db b :
  balance db user_id = Some b ->
  exists u,
    find_one (user_has_id user_id) (users db) = Some u
    /\ UserDoc.id u = user_id
    /\ UserDoc.cashback_balance u = b
    /\ post_redemptions (Some user_id) redemption uuid4 utcnow db
       = create_redemption_request redemption (User_of_doc u) uuid4 utcnow db.
Proof.
  unfold balance. intros Hb.
  destruct (find_one (user_has_id user_id) (users db)) as [u|] eqn:Hu;
    [|done].
  exists u. simpl in Hb. injection Hb as Hb.
  destruct (find_one_Some _ _ _ Hu) as [Hid _].
  apply bool_decide_eq_true in Hid. repeat split; try done.
  unfold post_redemptions, bind.
  by rewrite (get_current_user_found _ _ _ Hu).
Qed.

(** C4: for an authenticated user, the redemption request fails with
    "Insufficient cashback balance" exactly when the amount exceeds the
    stored balance; any failure leaves the database (balance and redemption
    requests) as it was; an amount equal to the balance is not refused for
    funds and, with its destination given, succeeds and empties the
    balance. *)
Theorem insufficient_funds_iff_amount_exceeds_balance
    (user_id : string) (redemption : RedemptionRequestCreate.t)
    (uuid4 : string) (utcnow : datetime) (db : DB) (b : Q) :
  balance db user_id = Some b ->
  let r := post_redemptions (Some user_id) redemption uuid4 utcnow db in
  (snd r = HTTPException 400 "Insufficient cashback balance"
   <-> (b < RedemptionRequestCreate.amount redemption)%Q)
  /\ (forall status_code detail,
        snd r = HTTPException status_code detail -> fst r = db)
  /\ ((RedemptionRequestCreate.amount redemption == b)%Q ->
      destination_given redemption = true ->
      exists new_redemption b',
        snd r = OK new_redemption
        /\ balance (fst r) user_id = Some b' /\ (b' == 0)%Q).
Proof.
  intros Hb r. subst r.
  destruct (post_redemptions_as_user user_id redemption uuid4 utcnow db b Hb)
    as (u & Hu & Hid & Hbal & ->).
  destruct (redemption_paths redemption (User_of_doc u)) as [H|[[H Hd]|[H Hd]]];
    simpl in H; rewrite Hbal in H.
  - rewrite redemption_insufficient by (simpl; by rewrite Hbal).
    split; [done|]. split; [done|]. intros Heq. lra.
  - rewrite redemption_no_destination by (simpl; by rewrite ?Hbal).
    split; [split|split].
    + destruct (RedemptionRequestCreate.method redemption); discriminate.
    + intros Hlt. lra.
    + done.
    + intros _ Hd'. congruence.
  - destruct (redemption_accepted redemption (User_of_doc u) uuid4 utcnow db)
      as (new & -> & _); [simpl; by rewrite Hbal|done|].
    split; [split|split].
    + discriminate.
    + intros Hlt. lra.
    + discriminate.
    + intros Heq _. exists new. eexists. split; [done|].
      simpl fst. rewrite balance_set_redemption_requests. simpl User.id.
      rewrite Hid, (balance_inc_same _ _ _ _ Hb). split; [done|]. lra.
Qed.

Lemma insufficient_funds_witness :
  let r := post_redemptions (Some "u-bob")
             (RedemptionRequestCreate.mk 50 RedemptionMethod.UPI None
                (Some "bob@upi")) "r-1" 3 Sample.db_empty in
  (snd r = HTTPException 400 "Insufficient cashback balance"
   <-> (30 < 50)%Q)
  /\ (forall status_code detail,
        snd r = HTTPException status_code detail -> fst r = Sample.db_empty)
  /\ ((50 == 30)%Q ->
      true = true ->
      exists new_redemption b',
        snd r = OK new_redemption
        /\ balance (fst r) "u-bob" = Some b' /\ (b' == 0)%Q).
Proof.
  apply (insufficient_funds_iff_amount_exceeds_balance "u-bob"
           (RedemptionRequestCreate.mk 50 RedemptionMethod.UPI None
              (Some "bob@upi")) "r-1" 3%Z Sample.db_empty 30%Q).
  reflexivity.
Defined.

(** The two examples of C4, evaluated: 50 against a balance of 30 is
    refused and the balance stays 30; 30 against 30 is accepted. *)
Example redemption_50_of_30_refused :
  let r := post_redemptions (Some "u-bob")
             (RedemptionRequestCreate.mk 50 RedemptionMethod.UPI None
                (Some "bob@upi")) "r-1" 3 Sample.db_empty in
  r = (Sample.db_empty, HTTPException 400 "Insufficient cashback balance")
  /\ balance (fst r) "u-bob" = Some 30%Q.
Proof. vm_compute. split; reflexivity. Qed.

Example redemption_30_of_30_accepted :
  let r := post_redemptions (Some "u-bob")
             (RedemptionRequestCreate.mk 30 RedemptionMethod.UPI None
                (Some "bob@upi")) "r-1" 3 Sample.db_empty in
  snd r = OK (RedemptionRequest.mk "r-1" "u-bob" 30 RedemptionMethod.UPI
                RedemptionStatus.PENDING None (Some "bob@upi") None 3 None)
  /\ balance (fst r) "u-bob" = Some 0%Q
  /\ length (redemption_requests (fst r)) = 1%nat.
Proof. vm_compute. repeat split. Qed.

(** The response of a redemption request is decided by [db.users] alone:
    the stored bank accounts and UPI details are never read. *)
Lemma post_redemptions_response_users token redemption uuid4 utcnow db db' :
  users db = users db' ->
  snd (post_redemptions token redemption uuid4 utcnow db)
  = snd (post_redemptions token redemption uuid4 utcnow db').
Proof.
  intros Hus. unfold post_redemptions, bind.
  destruct token as [user_id|]; [|done].
  unfold get_current_user, bind, query. rewrite Hus.
  destruct (find_one (user_has_id user_id) (users db')) as [u|]; [|done].
  simpl. unfold create_redemption_request.
  destruct (Qltb _ _); [done|].
  destruct (RedemptionRequestCreate.method redemption);
    destruct (truthy_str _); done.
Qed.

(** C6 fails on the code in two ways. Bob redeems to the bank account
    "acct-alice", which [db.bank_accounts] records as Alice's, and the
    request succeeds; and a UPI request that also names a bank account
    succeeds and carries both references. *)
Lemma foreign_destination_accepted :
  let foreign := RedemptionRequestCreate.mk 10 RedemptionMethod.BANK_TRANSFER
                   (Some "acct-alice") None in
  let both := RedemptionRequestCreate.mk 10 RedemptionMethod.UPI
                (Some "acct-alice") (Some "bob@upi") in
  bank_accounts Sample.db_empty = [Sample.alice_account]
  /\ BankAccount.id Sample.alice_account = "acct-alice"
  /\ BankAccount.user_id Sample.alice_account = "u-alice"
  /\ upi_details Sample.db_empty = []
  /\ snd (post_redemptions (Some "u-bob") foreign "r-1" 3 Sample.db_empty)
     = OK (RedemptionRequest.mk "r-1" "u-bob" 10
             RedemptionMethod.BANK_TRANSFER RedemptionStatus.PENDING
             (Some "acct-alice") None None 3 None)
  /\ snd (post_redemptions (Some "u-bob") both "r-2" 4 Sample.db_empty)
     = OK (RedemptionRequest.mk "r-2" "u-bob" 10
             RedemptionMethod.UPI RedemptionStatus.PENDING
             (Some "acct-alice") (Some "bob@upi") None 4 None).
Proof. vm_compute. repeat split. Qed.

(** C6, as the code has it: for an authenticated user whose balance covers
    the amount, a request whose method's reference is missing or empty is
    refused with HTTP 400 and changes nothing; a request that names it
    succeeds, whoever owns the reference (the stored bank accounts and UPI
    details do not influence the response), and the created request keeps
    the method and both reference fields exactly as submitted. *)
Theorem destination_checked_for_presence_only
    (user_id : string) (redemption : RedemptionRequestCreate.t)
    (uuid4 : string) (utcnow : datetime) (db : DB) (b : Q) :
  balance db user_id = Some b ->
  (RedemptionRequestCreate.amount redemption <= b)%Q ->
  let r := post_redemptions (Some user_id) redemption uuid4 utcnow db in
  (destination_given redemption = false ->
   r = (db, HTTPException 400
              (destination_required
                 (RedemptionRequestCreate.method redemption))))
  /\ (destination_given redemption = true ->
      exists new_redemption,
        snd r = OK new_redemption
        /\ RedemptionRequest.method new_redemption
           = RedemptionRequestCreate.method redemption
        /\ RedemptionRequest.bank_account_id new_redemption
           = RedemptionRequestCreate.bank_account_id redemption
        /\ RedemptionRequest.upi_id new_redemption
           = RedemptionRequestCreate.upi_id redemption)
  /\ (forall accounts upis,
        snd (post_redemptions (Some user_id) redemption uuid4 utcnow
               (mkDB (users db) (products db) (transactions db)
                     accounts upis (redemption_requests db)))
        = snd r).
Proof.
  intros Hb Hamt r. subst r. split; [|split].
  - intros Hd.
    destruct (post_redemptions_as_user user_id redemption uuid4 utcnow db b Hb)
      as (u & Hu & Hid & Hbal & ->).
    apply redemption_no_destination; [simpl; by rewrite Hbal|done].
  - intros Hd.
    destruct (post_redemptions_as_user user_id redemption uuid4 utcnow db b Hb)
      as (u & Hu & Hid & Hbal & ->).
    destruct (redemption_accepted redemption (User_of_doc u) uuid4 utcnow db)
      as (new & -> & ->); [simpl; by rewrite Hbal|done|].
    eexists. repeat split.
  - intros accounts upis. by apply post_redemptions_response_users.
Qed.

Lemma destination_checked_for_presence_only_witness :
  let redemption := RedemptionRequestCreate.mk 10 RedemptionMethod.UPI
                      (Some "acct-alice") None in
  let r := post_redemptions (Some "u-bob") redemption "r-1" 3
             Sample.db_empty in
  (destination_given redemption = false ->
   r = (Sample.db_empty,
        HTTPException 400 "UPI ID is required for UPI transfers"))
  /\ (destination_given redemption = true ->
      exists new_redemption,
        snd r = OK new_redemption
        /\ RedemptionRequest.method new_redemption = RedemptionMethod.UPI
        /\ RedemptionRequest.bank_account_id new_redemption
           = Some "acct-alice"
        /\ RedemptionRequest.upi_id new_redemption = None)
  /\ (forall accounts upis,
        snd (post_redemptions (Some "u-bob") redemption "r-1" 3
               (mkDB (users Sample.db_empty) (products Sample.db_empty)
                     (transactions Sample.db_empty) accounts upis
                     (redemption_requests Sample.db_empty)))
        = snd r).
Proof.
  apply (destination_checked_for_presence_only "u-bob"
           (RedemptionRequestCreate.mk 10 RedemptionMethod.UPI
              (Some "acct-alice") None) "r-1" 3%Z Sample.db_empty 30%Q).
  - reflexivity.
  - unfold Qle. simpl. lia.
Defined.

(** The example of C6, evaluated: a UPI request without [upi_id] is
    refused and nothing is stored. *)
Example upi_without_upi_id_refused :
  post_redemptions (Some "u-bob")
    (RedemptionRequestCreate.mk 10 RedemptionMethod.UPI None None)
    "r-1" 3 Sample.db_empty
  = (Sample.db_empty,
     HTTPException 400 "UPI ID is required for UPI transfers").
Proof. vm_compute. reflexivity. Qed.

(** ** Claims *)

Lemma create_transaction_no_product transaction current_user uuid4 utcnow db :
  find_one (product_has_id (TransactionCreate.product_id transaction))
           (products db) = None ->
  create_transaction transaction current_user uuid4 utcnow db
  = (db, HTTPException 404 "Product not found").
Proof. intros Hp. unfold create_transaction, bind, query. by rewrite Hp. Qed.

Lemma create_transaction_product transaction current_user uuid4 utcnow db
    product :
  find_one (product_has_id (TransactionCreate.product_id transaction))
           (products db) = Some product ->
  exists new_transaction,
    create_transaction transaction current_user uuid4 utcnow db
    = (set_transactions (insert_one new_transaction) db, OK new_transaction)
    /\ new_transaction
       = Transaction.mk uuid4 (User.id current_user)
           (TransactionCreate.product_id transaction)
           (TransactionCreate.amazon_order_id transaction)
           (TransactionCreate.amount transaction)
           ((TransactionCreate.amount transaction
             * Product.cashback_percent product) / 100)%Q
           TransactionStatus.PENDING
           (Some (TransactionCreate.verification_method transaction))
           None None
           (TransactionCreate.screenshot_url transaction)
           utcnow.
Proof.
  intros Hp. eexists. split; [|reflexivity].
  unfold create_transaction, bind, query. by rewrite Hp.
Qed.

(** Case analysis on the [Depends(get_current_user)] of a route: either
    the caller is authenticated as [u], or the route has answered 401;
    the database is the same in both cases. *)
Ltac authenticate token db u :=
  let db1 := fresh "db" in
  let Hg := fresh "Hg" in
  let Hs := fresh "Hs" in
  destruct (get_current_user token db) as [db1 [u|? ?]] eqn:Hg;
  pose proof (get_current_user_state token db) as Hs;
  rewrite Hg in Hs; simpl in Hs; subst db1.

(** The example of C7 in binary64 arithmetic: (100.0 * 5.0) / 100 is the
    float 5.0, with no rounding error. *)
Example cashback_of_100_at_5_percent_binary64 :
  Binary64.cashback_amount (Binary64.of_Z 100) (Binary64.of_Z 5)
  = Binary64.of_Z 5.
Proof. vm_compute. reflexivity. Qed.

(** C8 fails on the code: a claim for the order id "ORDER-1" is accepted
    twice, by two users; the second submission is answered with the new
    transaction (no 409) and the store then holds two transactions with
    that order id. *)
Lemma duplicate_order_id_accepted :
  let r1 := post_transactions (Some "u-alice") Sample.new_claim "t-1" 1
              Sample.db_empty in
  let r2 := post_transactions (Some "u-bob") Sample.new_claim "t-2" 9
              (fst r1) in
  count_order "ORDER-1" (fst r1) = 1%nat
  /\ snd r2 = OK (Transaction.mk "t-2" "u-bob" "p-echo" (Some "ORDER-1") 100
                    (100 * 5 / 100) TransactionStatus.PENDING
                    (Some VerificationMethod.SELF_REPORTED) None None None 9)
  /\ count_order "ORDER-1" (fst r2) = 2%nat
  /\ map Transaction.amazon_order_id (transactions (fst r2))
     = [Some "ORDER-1"; Some "ORDER-1"].
Proof. vm_compute. repeat split. Qed.

(** C8, as the code has it: order ids are not checked on submission. A
    claim for a stored product succeeds whether or not its order id is
    already stored, and adds one more transaction carrying that order id. *)
Theorem order_id_is_not_checked_on_submission
    (transaction : TransactionCreate.t) (current_user : User.t)
    (uuid4 : string) (utcnow : datetime) (db : DB) (product : Product.t)
    (order_id : string) :
  find_one (product_has_id (TransactionCreate.product_id transaction))
           (products db) = Some product ->
  TransactionCreate.amazon_order_id transaction = Some order_id ->
  let r := create_transaction transaction current_user uuid4 utcnow db in
  (exists t, snd r = OK t /\ Transaction.amazon_order_id t = Some order_id)
  /\ count_order order_id (fst r) = S (count_order order_id db).
Proof.
  intros Hp Ho r. subst r.
  destruct (create_transaction_product transaction current_user uuid4
              utcnow db product Hp) as (t & -> & ->).
  split.
  - eexists. split; [reflexivity|exact Ho].
  - unfold count_order, insert_one. simpl.
    rewrite filter_app, length_app, filter_cons_True by exact Ho.
    simpl. lia.
Qed.

Lemma order_id_is_not_checked_on_submission_witness :
  let r := create_transaction Sample.new_claim (User_of_doc Sample.bob)
             "t-2" 9 (Sample.db_with TransactionStatus.PENDING) in
  (exists t, snd r = OK t /\ Transaction.amazon_order_id t = Some "ORDER-1")
  /\ count_order "ORDER-1" (fst r)
     = S (count_order "ORDER-1" (Sample.db_with TransactionStatus.PENDING)).
Proof.
  apply (order_id_is_not_checked_on_submission Sample.new_claim
           (User_of_doc Sample.bob) "t-2" 9%Z
           (Sample.db_with TransactionStatus.PENDING) Sample.echo_dot
           "ORDER-1"); reflexivity.
Defined.

(** * Further properties of the handlers *)

Open Scope list_scope.

(** ** More on collections *)

Section CursorFacts.
Context {D : Type}.
Implicit Types (q : D -> bool) (upd : D -> D) (c : list D).

Lemma find_one_app_None q c1 c2 :
  find_one q c1 = None -> find_one q (c1 ++ c2) = find_one q c2.
Proof.
  induction c1 as [|d c1 IH]; simpl; [done|].
  destruct (q d); [done|]. exact IH.
Qed.

Lemma find_one_app_Some q c1 c2 d :
  find_one q c1 = Some d -> find_one q (c1 ++ c2) = Some d.
Proof.
  induction c1 as [|d' c1 IH]; simpl; [done|].
  destruct (q d'); [done|]. exact IH.
Qed.

Lemma update_one_app_Some q upd c1 c2 d :
  find_one q c1 = Some d ->
  update_one q upd (c1 ++ c2) = update_one q upd c1 ++ c2.
Proof.
  induction c1 as [|d' c1 IH]; simpl; [done|].
  destruct (q d'); [done|]. intros H. by rewrite IH.
Qed.

Lemma update_one_app_None q upd c1 c2 :
  find_one q c1 = None ->
  update_one q upd (c1 ++ c2) = c1 ++ update_one q upd c2.
Proof.
  induction c1 as [|d' c1 IH]; simpl; [done|].
  destruct (q d'); [done|]. intros H. by rewrite IH.
Qed.

Lemma length_update_one q upd c : length (update_one q upd c) = length c.
Proof.
  induction c as [|d c IH]; simpl; [done|].
  destruct (q d); simpl; by rewrite ?IH.
Qed.

Lemma elem_of_update_one q upd c d :
  d ∈ c -> d ∈ update_one q upd c \/ upd d ∈ update_one q upd c.
Proof.
  induction c as [|d' c IH]; simpl.
  - intros H. by apply elem_of_nil in H.
  - intros H. apply elem_of_cons in H as [->|H].
    + destruct (q d'); [right|left]; apply list_elem_of_here.
    + destruct (q d').
      * left. by apply list_elem_of_further.
      * destruct (IH H); [left|right]; by apply list_elem_of_further.
Qed.

Lemma find_app q c1 c2 : find q (c1 ++ c2) = find q c1 ++ find q c2.
Proof.
  induction c1 as [|d c1 IH]; simpl; [done|].
  destruct (q d); simpl; by rewrite IH.
Qed.

Lemma elem_of_find q c d : d ∈ find q c <-> d ∈ c /\ q d = true.
Proof.
  induction c as [|d' c IH]; simpl.
  - split; [intros H; by apply elem_of_nil in H|].
    intros [H _]. by apply elem_of_nil in H.
  - destruct (q d') eqn:E; rewrite ?elem_of_cons, IH, ?elem_of_cons.
    + split; [intros [->|[? ?]]; auto|]. intros [[->|?] ?]; auto.
    + split; [intros [? ?]; auto|]. intros [[->|?] ?]; [congruence|auto].
Qed.

Lemma length_to_list n c : length (to_list n c) <= n.
Proof. unfold to_list. rewrite length_take. lia. Qed.

Lemma elem_of_to_list n c d : d ∈ to_list n c -> d ∈ c.
Proof.
  unfold to_list. intros H. apply list_elem_of_lookup in H as [i H].
  apply lookup_take_Some in H as [H _]. apply list_elem_of_lookup. eauto.
Qed.

(** Listing after an insertion: the new document shows up exactly when
    the cursor had room for it. *)
Lemma to_list_find_insert_one n q c d :
  q d = true ->
  to_list n (find q (insert_one d c))
  = if decide (length (find q c) < n)
    then find q c ++ [d]
    else to_list n (find q c).
Proof.
  intros Hq. unfold to_list, insert_one. rewrite find_app. simpl.
  rewrite Hq. destruct (decide (length (find q c) < n)) as [Hlt|Hge].
  - apply take_ge. rewrite length_app. simpl. lia.
  - rewrite take_app_le by lia. done.
Qed.

Lemma find_update_many_other q q' upd c :
  (forall d, q d = true -> q' (upd d) = false) ->
  (forall d, q d = true -> q' d = false) ->
  find q' (update_many q upd c) = find q' c.
Proof.
  intros Hupd Hdisj. induction c as [|d c IH]; simpl; [done|].
  destruct (q d) eqn:E.
  - by rewrite (Hupd d E), (Hdisj d E).
  - by rewrite IH.
Qed.

Lemma find_update_many_none q q' upd c :
  (forall d, q d = true -> q' (upd d) = false) ->
  (forall d, q' d = true -> q d = true) ->
  find q' (update_many q upd c) = [].
Proof.
  intros Hupd Hsub. induction c as [|d c IH]; simpl; [done|].
  destruct (q d) eqn:E.
  - by rewrite (Hupd d E).
  - destruct (q' d) eqn:E'; [|done]. rewrite (Hsub d E') in E. done.
Qed.

Lemma length_update_many q upd c : length (update_many q upd c) = length c.
Proof. induction c as [|d c IH]; simpl; by rewrite ?IH. Qed.
End CursorFacts.

(** ** Routes behind authentication *)

Lemma put_admin_verify_as_user user_id transaction_id status notes utcnow db b :
  balance db user_id = Some b ->
  exists u,
    find_one (user_has_id user_id) (users db) = Some u
    /\ put_admin_verify (Some user_id) transaction_id status notes utcnow db
       = admin_verify_transaction transaction_id status notes (User_of_doc u)
           utcnow db.
Proof.
  unfold balance. intros Hb.
  destruct (find_one (user_has_id user_id) (users db)) as [u|] eqn:Hu;
    [|done].
  exists u. split; [done|]. unfold put_admin_verify, bind.
  by rewrite (get_current_user_found _ _ _ Hu).
Qed.

Lemma admin_verify_any_caller transaction_id status notes u1 u2 utcnow db :
  admin_verify_transaction transaction_id status notes u1 utcnow db
  = admin_verify_transaction transaction_id status notes u2 utcnow db.
Proof. reflexivity. Qed.

(** X1: a request that is answered with an exception has changed nothing:
    whenever submitting a claim, requesting a redemption, a webhook delivery
    or a manual verification raises, the database is the one before the
    request. *)
Theorem failed_request_changes_nothing (db : DB) (r : Request) :
  serve_failed db r = true -> serve db r = db.
Proof.
  destruct r as [token transaction uuid4 utcnow
                |token redemption uuid4 utcnow
                |payload utcnow
                |token transaction_id status notes utcnow]; simpl.
  - unfold post_transactions, bind.
    authenticate token db current_user; [|done].
    destruct (find_one
                (product_has_id (TransactionCreate.product_id transaction))
                (products db)) as [product|] eqn:Hp.
    + destruct (create_transaction_product transaction current_user uuid4
                  utcnow db product Hp) as (t & -> & _). done.
    + by rewrite create_transaction_no_product.
  - unfold post_redemptions, bind.
    authenticate token db current_user; [|done].
    destruct (redemption_paths redemption current_user)
      as [H|[[H Hd]|[H Hd]]].
    + by rewrite redemption_insufficient.
    + by rewrite redemption_no_destination.
    + destruct (redemption_accepted redemption current_user uuid4 utcnow db
                  H Hd) as (new & -> & _). done.
  - destruct (truthy (payload !! "amazon_order_id")) eqn:Ht.
    2:{ by rewrite webhook_missing. }
    destruct (payload !! "amazon_order_id") as [v|] eqn:Hv; [|done].
    destruct (find_one (transaction_has_order v) (transactions db))
      as [t|] eqn:Hf.
    + by rewrite (webhook_match _ _ _ _ _ Hv Ht Hf).
    + by rewrite (webhook_no_match _ _ _ _ Hv Ht Hf).
  - unfold put_admin_verify, bind.
    authenticate token db current_user; [|done].
    destruct (find_one (transaction_has_id transaction_id) (transactions db))
      as [t|] eqn:Hf.
    + by rewrite (admin_found _ _ _ _ _ _ _ Hf).
    + by rewrite admin_not_found.
Qed.

Lemma failed_request_changes_nothing_witness :
  serve (Sample.db_with TransactionStatus.PENDING)
        (PutAdminVerify (Some "u-bob") "t-404" TransactionStatus.VERIFIED
                        None 7)
  = Sample.db_with TransactionStatus.PENDING.
Proof.
  apply failed_request_changes_nothing. reflexivity.
Defined.

(** X2: a verification changes no balance but the owner's. A webhook
    delivery or a manual verification leaves the balance of every user who
    does not own the transaction it finds as it was; in particular the
    caller of the admin route is not credited. *)
Theorem verification_credits_only_the_owner :
  (forall (payload : gmap string Json) (utcnow : datetime) (db : DB)
          (user_id : string),
     (forall v t,
        payload !! "amazon_order_id" = Some v ->
        find_one (transaction_has_order v) (transactions db) = Some t ->
        Transaction.user_id t <> user_id) ->
     balance (fst (amazon_associates_webhook payload utcnow db)) user_id
     = balance db user_id)
  /\
  (forall (transaction_id : string) (status : TransactionStatus.t)
          (notes : option string) (admin : User.t) (utcnow : datetime)
          (db : DB) (user_id : string),
     (forall t,
        find_one (transaction_has_id transaction_id) (transactions db)
        = Some t ->
        Transaction.user_id t <> user_id) ->
     balance (fst (admin_verify_transaction transaction_id status notes admin
                     utcnow db)) user_id
     = balance db user_id).
Proof.
  split.
  - intros payload utcnow db user_id Hother.
    destruct (truthy (payload !! "amazon_order_id")) eqn:Ht.
    2:{ by rewrite webhook_missing. }
    destruct (payload !! "amazon_order_id") as [v|] eqn:Hv; [|done].
    destruct (find_one (transaction_has_order v) (transactions db))
      as [t|] eqn:Hf.
    + rewrite (webhook_match _ _ _ _ _ Hv Ht Hf). simpl fst.
      rewrite balance_inc_other; [done|].
      intros ->. by apply (Hother v t).
    + by rewrite (webhook_no_match _ _ _ _ Hv Ht Hf).
  - intros transaction_id status notes admin utcnow db user_id Hother.
    destruct (find_one (transaction_has_id transaction_id) (transactions db))
      as [t|] eqn:Hf.
    + rewrite (admin_found _ _ _ _ _ _ _ Hf). simpl fst.
      destruct status; try done.
      rewrite balance_inc_other; [done|].
      intros ->. by apply (Hother t).
    + by rewrite admin_not_found.
Qed.

Lemma verification_credits_only_the_owner_witness :
  balance (fst (amazon_associates_webhook Sample.delivery 7
                  (Sample.db_with TransactionStatus.PENDING))) "u-bob"
  = Some 30%Q
  /\ balance (fst (admin_verify_transaction "t-1" TransactionStatus.VERIFIED
                     None (User_of_doc Sample.bob) 7
                     (Sample.db_with TransactionStatus.PENDING))) "u-bob"
     = Some 30%Q.
Proof.
  destruct verification_credits_only_the_owner as [Hw Ha]. split.
  - rewrite Hw; [reflexivity|].
    intros v t Hv Hf. vm_compute in Hv. injection Hv as <-.
    vm_compute in Hf. injection Hf as <-. discriminate.
  - rewrite Ha; [reflexivity|].
    intros t Hf. vm_compute in Hf. injection Hf as <-. discriminate.
Defined.

(** X3: the admin route checks no role. Any two authenticated callers,
    the owner of the claim included, get the same response and the same
    database from a manual verification. *)
Theorem manual_verification_ignores_the_caller
    (caller1 caller2 : string) (transaction_id : string)
    (status : TransactionStatus.t) (notes : option string)
    (utcnow : datetime) (db : DB) :
  is_Some (balance db caller1) ->
  is_Some (balance db caller2) ->
  put_admin_verify (Some caller1) transaction_id status notes utcnow db
  = put_admin_verify (Some caller2) transaction_id status notes utcnow db.
Proof.
  intros [b1 H1] [b2 H2].
  destruct (put_admin_verify_as_user caller1 transaction_id status notes
              utcnow db b1 H1) as (u1 & _ & ->).
  destruct (put_admin_verify_as_user caller2 transaction_id status notes
              utcnow db b2 H2) as (u2 & _ & ->).
  apply admin_verify_any_caller.
Qed.

Lemma manual_verification_ignores_the_caller_witness :
  put_admin_verify (Some "u-alice") "t-1" TransactionStatus.VERIFIED None 7
    (Sample.db_with TransactionStatus.PENDING)
  = put_admin_verify (Some "u-bob") "t-1" TransactionStatus.VERIFIED None 7
      (Sample.db_with TransactionStatus.PENDING).
Proof.
  apply manual_verification_ignores_the_caller; eexists; reflexivity.
Defined.

(** ** Webhook deliveries and duplicate order ids *)

Lemma webhook_transactions payload utcnow db :
  transactions (fst (amazon_associates_webhook payload utcnow db))
  = transactions db
  \/ exists v,
       transactions (fst (amazon_associates_webhook payload utcnow db))
       = update_one (transaction_has_order v) (set_webhook_verified utcnow)
                    (transactions db).
Proof.
  destruct (truthy (payload !! "amazon_order_id")) eqn:Ht.
  2:{ left. by rewrite webhook_missing. }
  destruct (payload !! "amazon_order_id") as [v|] eqn:Hv; [|done].
  destruct (find_one (transaction_has_order v) (transactions db))
    as [t|] eqn:Hf.
  - right. exists v. by rewrite (webhook_match _ _ _ _ _ Hv Ht Hf).
  - left. by rewrite (webhook_no_match _ _ _ _ Hv Ht Hf).
Qed.

Lemma shadowed_update_one n t ts v utcnow :
  shadowed n t ts ->
  shadowed n t (update_one (transaction_has_order v)
                  (set_webhook_verified utcnow) ts).
Proof.
  intros (pre & post & t0 & -> & Hn & Hin & Ho).
  destruct (find_one (transaction_has_order v) pre) as [d|] eqn:Hf.
  - rewrite (update_one_app_Some _ _ _ _ _ Hf).
    exists (update_one (transaction_has_order v)
              (set_webhook_verified utcnow) pre), post.
    destruct (elem_of_update_one (transaction_has_order v)
                (set_webhook_verified utcnow) pre t0 Hin) as [H|H].
    + exists t0. by rewrite length_update_one.
    + exists (set_webhook_verified utcnow t0). by rewrite length_update_one.
  - rewrite (update_one_app_None _ _ _ _ Hf). simpl.
    assert (transaction_has_order v t = false) as ->.
    { unfold transaction_has_order. rewrite <- Ho.
      by apply (proj1 (find_one_None _ _) Hf). }
    by exists pre, (update_one (transaction_has_order v)
                 (set_webhook_verified utcnow) post), t0.
Qed.

Lemma shadowed_run_webhooks deliveries n t db :
  shadowed n t (transactions db) ->
  shadowed n t (transactions (run_webhooks deliveries db)).
Proof.
  revert db. induction deliveries as [|[payload utcnow] ds IH]; intros db H;
    [done|].
  unfold run_webhooks. simpl. apply IH.
  destruct (webhook_transactions payload utcnow db) as [->|[v ->]];
    [done|]. by apply shadowed_update_one.
Qed.

(** X4: the webhook never reaches a duplicate. A stored transaction that
    comes after another one carrying the same order id is left exactly as
    it is (status included) by every sequence of webhook deliveries,
    whatever their payloads. *)
Theorem later_duplicate_is_never_verified_by_webhook
    (deliveries : list (gmap string Json * datetime)) (db : DB)
    (pre post : list Transaction.t) (t0 t : Transaction.t) :
  transactions db = pre ++ t :: post ->
  t0 ∈ pre ->
  Transaction.amazon_order_id t0 = Transaction.amazon_order_id t ->
  transactions (run_webhooks deliveries db) !! length pre = Some t.
Proof.
  intros Hts Hin Ho.
  destruct (shadowed_run_webhooks deliveries (length pre) t db)
    as (pre' & post' & _ & -> & Hn & _).
  { by exists pre, post, t0. }
  rewrite <- Hn. apply list_lookup_middle. done.
Qed.

Lemma later_duplicate_is_never_verified_by_webhook_witness :
  transactions
    (run_webhooks [(Sample.delivery, 7%Z); (Sample.delivery, 8%Z)]
                  Sample2.db_duplicate) !! 1%nat
  = Some Sample2.second_claim.
Proof.
  apply (later_duplicate_is_never_verified_by_webhook _ Sample2.db_duplicate
           [Sample.claim TransactionStatus.PENDING] []
           (Sample.claim TransactionStatus.PENDING) Sample2.second_claim).
  - reflexivity.
  - apply list_elem_of_here.
  - reflexivity.
Defined.

(** ** Listing routes *)

(** X7: the listing routes are read-only, private and bounded. Each one
    leaves the database as it is and returns only stored documents of the
    caller: at most 100 transactions or redemption requests, at most 10
    bank accounts or UPI details. *)
Theorem listings_are_own_and_bounded (current_user : User.t) (db : DB) :
  (fst (get_user_transactions current_user db) = db
   /\ exists l, snd (get_user_transactions current_user db) = OK l
        /\ length l <= 100
        /\ forall t, t ∈ l ->
             t ∈ transactions db
             /\ Transaction.user_id t = User.id current_user)
  /\ (fst (get_redemption_requests current_user db) = db
      /\ exists l, snd (get_redemption_requests current_user db) = OK l
           /\ length l <= 100
           /\ forall r, r ∈ l ->
                r ∈ redemption_requests db
                /\ RedemptionRequest.user_id r = User.id current_user)
  /\ (fst (get_bank_accounts current_user db) = db
      /\ exists l, snd (get_bank_accounts current_user db) = OK l
           /\ length l <= 10
           /\ forall a, a ∈ l ->
                a ∈ bank_accounts db
                /\ BankAccount.user_id a = User.id current_user)
  /\ (fst (get_upi_details current_user db) = db
      /\ exists l, snd (get_upi_details current_user db) = OK l
           /\ length l <= 10
           /\ forall u, u ∈ l ->
                u ∈ upi_details db
                /\ UPIDetails.user_id u = User.id current_user).
Proof.
  repeat split; try (eexists; split; [reflexivity|]; split;
    [apply length_to_list|]; intros d Hd; apply elem_of_to_list in Hd;
    apply elem_of_find in Hd as [Hin Hq]; split; [exact Hin|];
    by apply bool_decide_eq_true in Hq).
Qed.

(** X8: a new claim is listed only while the caller has fewer than 100
    transactions. After a successful submission the caller's listing is
    the earlier transactions followed by the new one if there were fewer
    than 100 of them; from the 100th on, the listing is the one before the
    submission and the new claim is not shown. *)
Theorem new_claim_listed_below_100
    (transaction : TransactionCreate.t) (current_user : User.t)
    (uuid4 : string) (utcnow : datetime) (db : DB) (product : Product.t) :
  find_one (product_has_id (TransactionCreate.product_id transaction))
           (products db) = Some product ->
  let r := create_transaction transaction current_user uuid4 utcnow db in
  let earlier := find (transaction_of (User.id current_user))
                      (transactions db) in
  exists t,
    snd r = OK t
    /\ (length earlier < 100 ->
        snd (get_user_transactions current_user (fst r)) = OK (earlier ++ [t]))
    /\ (100 <= length earlier ->
        snd (get_user_transactions current_user (fst r))
        = snd (get_user_transactions current_user db)).
Proof.
  intros Hp r earlier. subst r.
  destruct (create_transaction_product transaction current_user uuid4
              utcnow db product Hp) as (t & -> & Ht).
  exists t. split; [done|].
  assert (Hq : transaction_of (User.id current_user) t = true).
  { rewrite Ht. by apply bool_decide_eq_true_2. }
  unfold get_user_transactions, query. cbn [fst snd].
  change (transactions (set_transactions (insert_one t) db))
    with (insert_one t (transactions db)).
  rewrite (to_list_find_insert_one _ _ _ _ Hq). fold earlier.
  split; intros Hlen; destruct (decide (length earlier < 100)); try lia; done.
Qed.

Lemma new_claim_listed_below_100_witness :
  let r := create_transaction Sample.new_claim Sample2.bob_user "t-2" 9
             (Sample.db_with TransactionStatus.PENDING) in
  exists t,
    snd r = OK t
    /\ (length (@nil Transaction.t) < 100 ->
        snd (get_user_transactions Sample2.bob_user (fst r)) = OK ([] ++ [t]))
    /\ (100 <= length (@nil Transaction.t) ->
        snd (get_user_transactions Sample2.bob_user (fst r))
        = snd (get_user_transactions Sample2.bob_user
                 (Sample.db_with TransactionStatus.PENDING))).
Proof.
  apply (new_claim_listed_below_100 Sample.new_claim Sample2.bob_user "t-2"
           9%Z (Sample.db_with TransactionStatus.PENDING) Sample.echo_dot).
  reflexivity.
Defined.

(** X9: a new redemption request is listed only while the caller has
    fewer than 100 of them. After a successful redemption request of an
    authenticated user the listing is the earlier requests followed by the
    new one if there were fewer than 100; otherwise it is the listing
    before the request, although the balance has been debited. *)
Theorem new_redemption_listed_below_100
    (redemption : RedemptionRequestCreate.t) (current_user : User.t)
    (uuid4 : string) (utcnow : datetime) (db : DB) :
  (RedemptionRequestCreate.amount redemption
   <= User.cashback_balance current_user)%Q ->
  destination_given redemption = true ->
  let r := create_redemption_request redemption current_user uuid4 utcnow db in
  let earlier := find (redemption_of (User.id current_user))
                      (redemption_requests db) in
  exists new_redemption,
    snd r = OK new_redemption
    /\ (length earlier < 100 ->
        snd (get_redemption_requests current_user (fst r))
        = OK (earlier ++ [new_redemption]))
    /\ (100 <= length earlier ->
        snd (get_redemption_requests current_user (fst r))
        = snd (get_redemption_requests current_user db)).
Proof.
  intros Hamt Hd r earlier. subst r.
  destruct (redemption_accepted redemption current_user uuid4 utcnow db
              Hamt Hd) as (new & -> & Hnew).
  exists new. split; [done|].
  assert (Hq : redemption_of (User.id current_user) new = true).
  { rewrite Hnew. by apply bool_decide_eq_true_2. }
  unfold get_redemption_requests, query. cbn [fst snd].
  change (redemption_requests (set_redemption_requests (insert_one new) ?d))
    with (insert_one new (redemption_requests db)).
  rewrite (to_list_find_insert_one _ _ _ _ Hq). fold earlier.
  split; intros Hlen; destruct (decide (length earlier < 100)); try lia; done.
Qed.

Lemma new_redemption_listed_below_100_witness :
  let redemption := RedemptionRequestCreate.mk 10 RedemptionMethod.UPI None
                      (Some "bob@upi") in
  let r := create_redemption_request redemption Sample2.bob_user "r-1" 3
             Sample.db_empty in
  exists new_redemption,
    snd r = OK new_redemption
    /\ (length (@nil RedemptionRequest.t) < 100 ->
        snd (get_redemption_requests Sample2.bob_user (fst r))
        = OK ([] ++ [new_redemption]))
    /\ (100 <= length (@nil RedemptionRequest.t) ->
        snd (get_redemption_requests Sample2.bob_user (fst r))
        = snd (get_redemption_requests Sample2.bob_user Sample.db_empty)).
Proof.
  apply (new_redemption_listed_below_100
           (RedemptionRequestCreate.mk 10 RedemptionMethod.UPI None
              (Some "bob@upi")) Sample2.bob_user "r-1" 3%Z Sample.db_empty).
  - unfold Qle. simpl. lia.
  - reflexivity.
Defined.

(** ** Registration and login *)

Section PasswordFacts.
Variable get_password_hash : string -> string -> string.
Variable verify_password : string -> string -> bool.

Lemma register_user_taken user uuid4 utcnow salt db existing :
  find_one (user_has_email (UserCreate.email user)) (users db)
  = Some existing ->
  register_user get_password_hash user uuid4 utcnow salt db
  = (db, HTTPException 400 "Email already registered").
Proof.
  intros H. unfold register_user, bind, get_user_by_email, query.
  by rewrite H.
Qed.

Lemma register_user_free user uuid4 utcnow salt db :
  find_one (user_has_email (UserCreate.email user)) (users db) = None ->
  register_user get_password_hash user uuid4 utcnow salt db
  = (set_users
       (insert_one
          (UserDoc.mk uuid4 (UserCreate.email user) (UserCreate.name user)
             utcnow 0
             (get_password_hash salt (UserCreate.password user)))) db,
     OK (User.mk uuid4 (UserCreate.email user) (UserCreate.name user)
           utcnow 0)).
Proof.
  intros H. unfold register_user, bind, get_user_by_email, query.
  by rewrite H.
Qed.

(** X10: registration keeps e-mail addresses unique. If no two stored
    users share an e-mail address, that still holds after any registration
    request, accepted or refused. *)
Theorem registration_keeps_emails_unique
    (user : UserCreate.t) (uuid4 : string) (utcnow : datetime)
    (salt : string) (db : DB) :
  NoDup (UserDoc.email <$> users db) ->
  NoDup (UserDoc.email <$>
           users (fst (register_user get_password_hash user uuid4 utcnow
                         salt db))).
Proof.
  intros Hnd.
  destruct (find_one (user_has_email (UserCreate.email user)) (users db))
    as [existing|] eqn:Hf.
  - by rewrite (register_user_taken _ _ _ _ _ _ Hf).
  - rewrite (register_user_free _ _ _ _ _ Hf). simpl. unfold insert_one.
    rewrite fmap_app. apply NoDup_app. split; [done|]. split.
    + intros e He Hin. apply list_elem_of_singleton in Hin. subst e.
      apply list_elem_of_fmap in He as (u & Hu & Hin).
      pose proof (proj1 (find_one_None _ _) Hf u Hin) as Hq.
      unfold user_has_email in Hq. simpl in Hu.
      apply bool_decide_eq_false in Hq. congruence.
    + apply NoDup_singleton.
Qed.

(** X11: registration touches no existing balance and opens the new
    account at zero. Every stored balance is the same after a registration
    request; and when the request is accepted under an identifier no stored
    user has, the new user's balance is 0. *)
Theorem registration_opens_at_zero
    (user : UserCreate.t) (uuid4 : string) (utcnow : datetime)
    (salt : string) (db : DB) :
  let r := register_user get_password_hash user uuid4 utcnow salt db in
  (forall user_id b,
     balance db user_id = Some b -> balance (fst r) user_id = Some b)
  /\ (failed (snd r) = false ->
      balance db uuid4 = None ->
      balance (fst r) uuid4 = Some 0%Q).
Proof.
  intros r. subst r.
  destruct (find_one (user_has_email (UserCreate.email user)) (users db))
    as [existing|] eqn:Hf.
  - rewrite (register_user_taken _ _ _ _ _ _ Hf). split; [done|]. done.
  - rewrite (register_user_free _ _ _ _ _ Hf). simpl fst. split.
    + intros user_id b. unfold balance. simpl. unfold insert_one.
      destruct (find_one (user_has_id user_id) (users db)) as [u|] eqn:Hu;
        [|done].
      by rewrite (find_one_app_Some _ _ _ _ Hu).
    + intros _. unfold balance. simpl. unfold insert_one.
      destruct (find_one (user_has_id uuid4) (users db)) as [u|] eqn:Hu;
        [done|].
      intros _. rewrite (find_one_app_None _ _ _ Hu). simpl.
      unfold user_has_id. simpl. by rewrite bool_decide_eq_true_2.
Qed.

(** X12: register, log in, read the profile. When the e-mail address is
    free, the identifier drawn is fresh and the password verifies against
    its own hash, a login with the registered e-mail address and password
    succeeds right after the registration, and the token it returns
    identifies the registered user: the profile is the registered e-mail
    address and name with a balance of 0. *)
Theorem register_login_profile_round_trip
    (user : UserCreate.t) (uuid4 : string) (utcnow : datetime)
    (salt : string) (db : DB) :
  find_one (user_has_email (UserCreate.email user)) (users db) = None ->
  balance db uuid4 = None ->
  verify_password (UserCreate.password user)
    (get_password_hash salt (UserCreate.password user)) = true ->
  let profile :=
    User.mk uuid4 (UserCreate.email user) (UserCreate.name user) utcnow 0 in
  let r1 := register_user get_password_hash user uuid4 utcnow salt db in
  let r2 := login verify_password (UserCreate.email user)
              (UserCreate.password user) (fst r1) in
  snd r1 = OK profile
  /\ exists token,
       r2 = (fst r1, OK (AccessToken.mk token "bearer" profile))
       /\ get_current_user token (fst r1) = (fst r1, OK profile).
Proof.
  intros Hfree Hfresh Hverify profile r1 r2. subst r1 r2.
  rewrite (register_user_free _ _ _ _ _ Hfree). simpl fst. simpl snd.
  split; [done|].
  set (doc := UserDoc.mk uuid4 (UserCreate.email user) (UserCreate.name user)
                utcnow 0 (get_password_hash salt (UserCreate.password user))).
  exists (Some uuid4). split.
  - unfold login, authenticate_user, bind, get_user_by_email, query. simpl.
    unfold insert_one. rewrite (find_one_app_None _ _ _ Hfree). simpl.
    unfold user_has_email. simpl. rewrite bool_decide_eq_true_2 by done.
    simpl. rewrite Hverify. done.
  - apply (get_current_user_found _ _ doc). simpl. unfold insert_one.
    unfold balance in Hfresh.
    destruct (find_one (user_has_id uuid4) (users db)) as [u|] eqn:Hu;
      [done|].
    rewrite (find_one_app_None _ _ _ Hu). simpl.
    unfold user_has_id. simpl. by rewrite bool_decide_eq_true_2.
Qed.

(** X13: login reads only, and fails the same way for an unknown e-mail
    address and for a wrong password. It never changes the database; it
    succeeds exactly when the first user stored under the e-mail address
    has a hash the password verifies against; every failure is the same
    401 "Incorrect email or password". *)
Theorem login_fails_uniformly (username password : string) (db : DB) :
  let r := login verify_password username password db in
  fst r = db
  /\ (failed (snd r) = false
      <-> exists u,
            find_one (user_has_email username) (users db) = Some u
            /\ verify_password password (UserDoc.password u) = true)
  /\ (failed (snd r) = true ->
      snd r = HTTPException 401 "Incorrect email or password").
Proof.
  intros r. subst r.
  unfold login, authenticate_user, bind, get_user_by_email, query. simpl.
  destruct (find_one (user_has_email username) (users db)) as [u|] eqn:Hu;
    simpl.
  - destruct (verify_password password (UserDoc.password u)) eqn:Hv; simpl.
    + split; [done|]. split; [|done]. split; [|done]. intros _. by exists u.
    + split; [done|]. split; [|done]. split; [done|].
      intros (u' & [= <-] & Hv'). congruence.
  - split; [done|]. split; [|done]. split; [done|]. by intros (u' & ? & _).
Qed.
End PasswordFacts.

Lemma register_login_profile_round_trip_witness :
  let profile := User.mk "u-carol" "carol@example.com" "Carol" 9 0 in
  let r1 := register_user Sample2.hash Sample2.carol "u-carol" 9 "salt"
              Sample.db_empty in
  let r2 := login Sample2.verify "carol@example.com" "correct horse"
              (fst r1) in
  snd r1 = OK profile
  /\ exists token,
       r2 = (fst r1, OK (AccessToken.mk token "bearer" profile))
       /\ get_current_user token (fst r1) = (fst r1, OK profile).
Proof.
  apply (register_login_profile_round_trip Sample2.hash Sample2.verify
           Sample2.carol "u-carol" 9%Z "salt" Sample.db_empty);
    reflexivity.
Defined.

Lemma registration_keeps_emails_unique_witness :
  NoDup (UserDoc.email <$>
           users (fst (register_user Sample2.hash Sample2.carol "u-carol" 9
                         "salt" Sample.db_empty))).
Proof.
  apply registration_keeps_emails_unique. simpl.
  apply NoDup_cons. split.
  - intros H. apply list_elem_of_singleton in H. discriminate H.
  - apply NoDup_singleton.
Defined.

(** ** Bank accounts and UPI details *)

Lemma account_of_other user_id caller a :
  user_id <> caller -> account_of caller a = true ->
  account_of user_id a = false.
Proof.
  unfold account_of. rewrite bool_decide_eq_true. intros Hne Ha.
  apply bool_decide_eq_false_2. congruence.
Qed.

Lemma default_accounts_unset_caller db caller :
  default_accounts
    (set_bank_accounts
       (update_many (account_of caller) unset_default_account) db) caller
  = 0.
Proof.
  unfold default_accounts. simpl. rewrite find_update_many_none; [done| |].
  - intros a _. simpl. apply andb_false_r.
  - intros a Ha. by apply andb_true_iff in Ha as [Ha _].
Qed.

Lemma default_accounts_unset_other db caller user_id :
  user_id <> caller ->
  default_accounts
    (set_bank_accounts
       (update_many (account_of caller) unset_default_account) db) user_id
  = default_accounts db user_id.
Proof.
  intros Hne. unfold default_accounts. simpl.
  rewrite find_update_many_other; [done| |].
  - intros a _. apply andb_false_r.
  - intros a Ha. by rewrite (account_of_other _ _ _ Hne Ha).
Qed.

Lemma default_accounts_insert_one db new user_id :
  default_accounts (set_bank_accounts (insert_one new) db) user_id
  = default_accounts db user_id
    + (if account_of user_id new && BankAccount.is_default new then 1 else 0).
Proof.
  unfold default_accounts, insert_one. simpl. rewrite find_app, length_app.
  simpl. by destruct (account_of user_id new && BankAccount.is_default new).
Qed.

Lemma upi_of_other user_id caller u :
  user_id <> caller -> upi_of caller u = true -> upi_of user_id u = false.
Proof.
  unfold upi_of. rewrite bool_decide_eq_true. intros Hne Hu.
  apply bool_decide_eq_false_2. congruence.
Qed.

Lemma default_upis_unset_caller db caller :
  default_upis
    (set_upi_details (update_many (upi_of caller) unset_default_upi) db) caller
  = 0.
Proof.
  unfold default_upis. simpl. rewrite find_update_many_none; [done| |].
  - intros u _. simpl. apply andb_false_r.
  - intros u Hu. by apply andb_true_iff in Hu as [Hu _].
Qed.

Lemma default_upis_unset_other db caller user_id :
  user_id <> caller ->
  default_upis
    (set_upi_details (update_many (upi_of caller) unset_default_upi) db)
    user_id
  = default_upis db user_id.
Proof.
  intros Hne. unfold default_upis. simpl.
  rewrite find_update_many_other; [done| |].
  - intros u _. apply andb_false_r.
  - intros u Hu. by rewrite (upi_of_other _ _ _ Hne Hu).
Qed.

Lemma default_upis_insert_one db new user_id :
  default_upis (set_upi_details (insert_one new) db) user_id
  = default_upis db user_id
    + (if upi_of user_id new && UPIDetails.is_default new then 1 else 0).
Proof.
  unfold default_upis, insert_one. simpl. rewrite find_app, length_app.
  simpl. by destruct (upi_of user_id new && UPIDetails.is_default new).
Qed.

Section PydanticFacts.
Variable str_validator : Json -> option string.
Variable bool_validator : Json -> option bool.

(** What the handler has done when it returns or raises: the bulk update
    if the flag is truthy, then either nothing more and an exception, or
    the insertion of the caller's new account. *)
Lemma add_bank_account_outcome bank_account current_user uuid4 utcnow db :
  let flag := dict_get bank_account "is_default" (JBool true) in
  let db1 :=
    if truthy (Some flag)
    then set_bank_accounts
           (update_many (account_of (User.id current_user))
                        unset_default_account) db
    else db in
  let r := add_bank_account str_validator bool_validator bank_account
             current_user uuid4 utcnow db in
  (fst r = db1 /\ exists e, snd r = Raised e)
  \/ (exists new,
        fst r = set_bank_accounts (insert_one new) db1
        /\ snd r = Returned new
        /\ BankAccount.user_id new = User.id current_user
        /\ bool_validator flag = Some (BankAccount.is_default new)).
Proof.
  intros flag db1 r. subst r. unfold add_bank_account. fold flag. fold db1.
  destruct (bank_account !! "account_holder") as [v1|]; [|left; eauto].
  destruct (bank_account !! "account_number") as [v2|]; [|left; eauto].
  destruct (bank_account !! "ifsc_code") as [v3|]; [|left; eauto].
  destruct (bank_account !! "bank_name") as [v4|]; [|left; eauto].
  destruct (str_validator v1); [|left; eauto].
  destruct (str_validator v2); [|left; eauto].
  destruct (str_validator v3); [|left; eauto].
  destruct (str_validator v4); [|left; eauto].
  destruct (bool_validator flag) as [is_default|]; [|left; eauto].
  right. eexists. repeat split.
Qed.

Lemma add_upi_outcome upi_details current_user uuid4 utcnow db :
  let flag := dict_get upi_details "is_default" (JBool true) in
  let db1 :=
    if truthy (Some flag)
    then set_upi_details
           (update_many (upi_of (User.id current_user)) unset_default_upi) db
    else db in
  let r := add_upi str_validator bool_validator upi_details current_user
             uuid4 utcnow db in
  (fst r = db1 /\ exists e, snd r = Raised e)
  \/ (exists new,
        fst r = set_upi_details (insert_one new) db1
        /\ snd r = Returned new
        /\ UPIDetails.user_id new = User.id current_user
        /\ bool_validator flag = Some (UPIDetails.is_default new)).
Proof.
  intros flag db1 r. subst r. unfold add_upi. fold flag. fold db1.
  destruct (upi_details !! "upi_id") as [v1|]; [|left; eauto].
  destruct (str_validator v1); [|left; eauto].
  destruct (bool_validator flag) as [is_default|]; [|left; eauto].
  right. eexists. repeat split.
Qed.

(** The validator for [bool] turns only truthy values into [True]. *)
Hypothesis bool_validator_truthy :
  forall v, bool_validator v = Some true -> truthy (Some v) = true.

(** X14: at most one default bank account per user. If no user has more
    than one default bank account, that still holds after any request to
    add a bank account, whatever the submitted fields and whether the
    handler returns or raises. *)
Theorem add_bank_account_keeps_one_default
    (bank_account : gmap string Json) (current_user : User.t)
    (uuid4 : string) (utcnow : datetime) (db : DB) :
  (forall user_id, default_accounts db user_id <= 1) ->
  forall user_id,
    default_accounts
      (fst (add_bank_account str_validator bool_validator bank_account
              current_user uuid4 utcnow db)) user_id <= 1.
Proof.
  intros Hinv user_id.
  pose proof (add_bank_account_outcome bank_account current_user uuid4
                utcnow db) as Hout. cbv zeta in Hout.
  set (flag := dict_get bank_account "is_default" (JBool true)) in *.
  assert (Hdb1 : forall db1,
    db1 = (if truthy (Some flag)
           then set_bank_accounts
                  (update_many (account_of (User.id current_user))
                               unset_default_account) db
           else db) ->
    default_accounts db1 user_id <= 1
    /\ (truthy (Some flag) = true -> user_id = User.id current_user ->
        default_accounts db1 user_id = 0)).
  { intros db1 ->. destruct (truthy (Some flag)).
    - destruct (decide (user_id = User.id current_user)) as [->|Hne].
      + rewrite default_accounts_unset_caller. split; [lia|done].
      + rewrite default_accounts_unset_other by done. split; [apply Hinv|].
        done.
    - split; [apply Hinv|done]. }
  destruct Hout as [[-> _]|(new & -> & _ & Hown & Hflag)].
  - by apply (Hdb1 _ eq_refl).
  - rewrite default_accounts_insert_one.
    destruct (Hdb1 _ eq_refl) as [Hle Hzero].
    destruct (account_of user_id new && BankAccount.is_default new) eqn:E;
      [|lia].
    apply andb_true_iff in E as [Ho Hd].
    rewrite Hd in Hflag. apply bool_validator_truthy in Hflag.
    apply bool_decide_eq_true in Ho. rewrite Hown in Ho.
    rewrite (Hzero Hflag (eq_sym Ho)). lia.
Qed.

(** X15: the same for UPI details: no request to add UPI details gives a
    user a second default. *)
Theorem add_upi_keeps_one_default
    (upi_details : gmap string Json) (current_user : User.t)
    (uuid4 : string) (utcnow : datetime) (db : DB) :
  (forall user_id, default_upis db user_id <= 1) ->
  forall user_id,
    default_upis
      (fst (add_upi str_validator bool_validator upi_details current_user
              uuid4 utcnow db)) user_id <= 1.
Proof.
  intros Hinv user_id.
  pose proof (add_upi_outcome upi_details current_user uuid4 utcnow db)
    as Hout. cbv zeta in Hout.
  set (flag := dict_get upi_details "is_default" (JBool true)) in *.
  assert (Hdb1 : forall db1,
    db1 = (if truthy (Some flag)
           then set_upi_details
                  (update_many (upi_of (User.id current_user))
                               unset_default_upi) db
           else db) ->
    default_upis db1 user_id <= 1
    /\ (truthy (Some flag) = true -> user_id = User.id current_user ->
        default_upis db1 user_id = 0)).
  { intros db1 ->. destruct (truthy (Some flag)).
    - destruct (decide (user_id = User.id current_user)) as [->|Hne].
      + rewrite default_upis_unset_caller. split; [lia|done].
      + rewrite default_upis_unset_other by done. split; [apply Hinv|].
        done.
    - split; [apply Hinv|done]. }
  destruct Hout as [[-> _]|(new & -> & _ & Hown & Hflag)].
  - by apply (Hdb1 _ eq_refl).
  - rewrite default_upis_insert_one.
    destruct (Hdb1 _ eq_refl) as [Hle Hzero].
    destruct (upi_of user_id new && UPIDetails.is_default new) eqn:E;
      [|lia].
    apply andb_true_iff in E as [Ho Hd].
    rewrite Hd in Hflag. apply bool_validator_truthy in Hflag.
    apply bool_decide_eq_true in Ho. rewrite Hown in Ho.
    rewrite (Hzero Hflag (eq_sym Ho)). lia.
Qed.
End PydanticFacts.

Lemma add_bank_account_keeps_one_default_witness :
  default_accounts
    (fst (add_bank_account Sample2.str_validator Sample2.bool_validator
            (Sample2.account_form (JBool true)) Sample2.alice_user "a-2" 5
            Sample.db_empty)) "u-alice" <= 1.
Proof.
  apply add_bank_account_keeps_one_default.
  - intros [|b|q|s]; simpl; try discriminate. by intros [= ->].
  - intros user_id. unfold default_accounts. simpl.
    destruct (account_of user_id Sample.alice_account); simpl; lia.
Defined.

Lemma add_upi_keeps_one_default_witness :
  default_upis
    (fst (add_upi Sample2.str_validator Sample2.bool_validator
            {[ "upi_id" := JString "alice@upi" ]} Sample2.alice_user
            "upi-1" 5 Sample.db_empty)) "u-alice" <= 1.
Proof.
  apply add_upi_keeps_one_default.
  - intros [|b|q|s]; simpl; try discriminate. by intros [= ->].
  - intros user_id. unfold default_upis. simpl. lia.
Defined.

Section PydanticFailures.
Variable str_validator : Json -> option string.
Variable bool_validator : Json -> option bool.

(** X16: a request that fails can still unset the default. When the
    submitted [is_default] is truthy or absent and one of the four required
    fields is missing, the handler raises a [KeyError] and stores no
    account, but the caller's accounts have already lost their default
    flag: the caller is left with no default bank account. *)
Theorem failed_add_bank_account_unsets_default
    (bank_account : gmap string Json) (current_user : User.t)
    (uuid4 : string) (utcnow : datetime) (db : DB) :
  truthy (Some (dict_get bank_account "is_default" (JBool true))) = true ->
  bank_account !! "account_holder" = None
  \/ bank_account !! "account_number" = None
  \/ bank_account !! "ifsc_code" = None
  \/ bank_account !! "bank_name" = None ->
  let r := add_bank_account str_validator bool_validator bank_account
             current_user uuid4 utcnow db in
  (exists key, snd r = Raised (KeyError key))
  /\ default_accounts (fst r) (User.id current_user) = 0
  /\ length (bank_accounts (fst r)) = length (bank_accounts db).
Proof.
  intros Hflag Hmissing r. subst r. unfold add_bank_account. rewrite Hflag.
  assert (Hlen : length (bank_accounts
            (set_bank_accounts
               (update_many (account_of (User.id current_user))
                            unset_default_account) db))
          = length (bank_accounts db)).
  { simpl. apply length_update_many. }
  pose proof (default_accounts_unset_caller db (User.id current_user)) as H0.
  destruct (bank_account !! "account_holder") as [v1|];
    [|split; [by eexists|done]].
  destruct (bank_account !! "account_number") as [v2|];
    [|split; [by eexists|done]].
  destruct (bank_account !! "ifsc_code") as [v3|];
    [|split; [by eexists|done]].
  destruct (bank_account !! "bank_name") as [v4|];
    [|split; [by eexists|done]].
  by destruct Hmissing as [?|[?|[?|?]]].
Qed.

(** X17: a new default account replaces the earlier default. When the
    handler returns an account flagged as default, that account is stored,
    belongs to the caller, and is the caller's only default account. *)
Theorem new_default_account_is_the_only_default
    (bank_account : gmap string Json) (current_user : User.t)
    (uuid4 : string) (utcnow : datetime) (db : DB) (new : BankAccount.t) :
  (forall v, bool_validator v = Some true -> truthy (Some v) = true) ->
  snd (add_bank_account str_validator bool_validator bank_account
         current_user uuid4 utcnow db) = Returned new ->
  BankAccount.is_default new = true ->
  BankAccount.user_id new = User.id current_user
  /\ find (fun a => account_of (User.id current_user) a
                    && BankAccount.is_default a)
          (bank_accounts
             (fst (add_bank_account str_validator bool_validator bank_account
                     current_user uuid4 utcnow db)))
     = [new].
Proof.
  intros Htruthy Hret Hdefault.
  pose proof (add_bank_account_outcome str_validator bool_validator
                bank_account current_user uuid4 utcnow db) as Hout.
  cbv zeta in Hout.
  destruct Hout as [[_ [e He]]|(new' & Hfst & Hsnd & Hown & Hflag)].
  { rewrite He in Hret. discriminate. }
  rewrite Hsnd in Hret. injection Hret as ->. split; [exact Hown|].
  rewrite Hfst. rewrite Hdefault in Hflag.
  rewrite (Htruthy _ Hflag). simpl. unfold insert_one.
  rewrite find_app, find_update_many_none.
  - simpl. unfold account_of at 1. rewrite Hown, Hdefault.
    by rewrite bool_decide_eq_true_2.
  - intros a _. simpl. apply andb_false_r.
  - intros a Ha. by apply andb_true_iff in Ha as [Ha _].
Qed.
End PydanticFailures.

Lemma failed_add_bank_account_unsets_default_witness :
  let r := add_bank_account Sample2.str_validator Sample2.bool_validator
             (delete "bank_name" (Sample2.account_form (JBool true)))
             Sample2.alice_user "a-2" 5 Sample.db_empty in
  default_accounts Sample.db_empty "u-alice" = 1
  /\ (exists key, snd r = Raised (KeyError key))
  /\ default_accounts (fst r) "u-alice" = 0
  /\ length (bank_accounts (fst r)) = length (bank_accounts Sample.db_empty).
Proof.
  split; [reflexivity|].
  apply (failed_add_bank_account_unsets_default Sample2.str_validator
           Sample2.bool_validator
           (delete "bank_name" (Sample2.account_form (JBool true)))
           Sample2.alice_user "a-2" 5%Z Sample.db_empty).
  - reflexivity.
  - right. right. right. reflexivity.
Defined.

Lemma new_default_account_is_the_only_default_witness :
  let new := BankAccount.mk "a-2" "u-alice" "Alice" "000456" "TEST0002"
               "Other Bank" true 5 in
  BankAccount.user_id new = "u-alice"
  /\ find (fun a => account_of "u-alice" a && BankAccount.is_default a)
          (bank_accounts
             (fst (add_bank_account Sample2.str_validator
                     Sample2.bool_validator
                     (Sample2.account_form (JBool true)) Sample2.alice_user
                     "a-2" 5 Sample.db_empty)))
     = [new].
Proof.
  apply (new_default_account_is_the_only_default Sample2.str_validator
           Sample2.bool_validator (Sample2.account_form (JBool true))
           Sample2.alice_user "a-2" 5%Z Sample.db_empty).
  - intros [|b|q|s]; simpl; try discriminate. by intros [= ->].
  - reflexivity.
  - reflexivity.
Defined.

(** ** Products *)

(** X18: a claim can be submitted exactly for the products the product
    route serves: [create_transaction] raises for a product id exactly
    when [get_product] raises for it, and then both answer 404 "Product not
    found". *)
Theorem claim_needs_a_served_product
    (transaction : TransactionCreate.t) (current_user : User.t)
    (uuid4 : string) (utcnow : datetime) (db : DB) :
  let claim := create_transaction transaction current_user uuid4 utcnow db in
  let page := get_product (TransactionCreate.product_id transaction) db in
  failed (snd claim) = failed (snd page)
  /\ (failed (snd claim) = true ->
      snd claim = HTTPException 404 "Product not found"
      /\ snd page = HTTPException 404 "Product not found").
Proof.
  intros claim page. subst claim page.
  unfold get_product, bind, query. simpl.
  destruct (find_one
              (product_has_id (TransactionCreate.product_id transaction))
              (products db)) as [product|] eqn:Hp.
  - destruct (create_transaction_product transaction current_user uuid4
                utcnow db product Hp) as (t & -> & _). done.
  - by rewrite create_transaction_no_product.
Qed.

(** X19: seeding replaces the catalogue. Whatever was stored, after
    seeding the catalogue is the six sample products under the six
    identifiers just drawn, in order, and nothing but the products has
    changed; so a claim for any other product id, one of an earlier
    catalogue included, is refused with 404. *)
Theorem seeding_replaces_the_catalogue
    (uuid4 : nat -> string) (db : DB)
    (transaction : TransactionCreate.t) (current_user : User.t)
    (t_id : string) (utcnow : datetime) :
  let r := seed_products uuid4 db in
  snd r = OK (products (fst r))
  /\ Product.id <$> products (fst r) = uuid4 <$> [0; 1; 2; 3; 4; 5]
  /\ fst r = set_products (fun _ => products (fst r)) db
  /\ (TransactionCreate.product_id transaction
        ∉ uuid4 <$> [0; 1; 2; 3; 4; 5] ->
      create_transaction transaction current_user t_id utcnow (fst r)
      = (fst r, HTTPException 404 "Product not found")).
Proof.
  intros r. subst r. split; [reflexivity|]. split; [reflexivity|].
  split; [reflexivity|].
  intros Hnot. apply create_transaction_no_product.
  apply find_one_None. intros p Hp.
  apply bool_decide_eq_false_2. intros Heq. apply Hnot. rewrite <- Heq.
  change (uuid4 <$> [0; 1; 2; 3; 4; 5])
    with (Product.id <$> products (fst (seed_products uuid4 db))).
  by apply list_elem_of_fmap_2.
Qed.

Lemma seeding_replaces_the_catalogue_witness :
  create_transaction Sample.new_claim Sample2.bob_user "t-1" 9
    (fst (seed_products (fun k => String (Ascii.ascii_of_nat (48 + k)) "")
                        Sample.db_empty))
  = (fst (seed_products (fun k => String (Ascii.ascii_of_nat (48 + k)) "")
                        Sample.db_empty),
     HTTPException 404 "Product not found").
Proof.
  apply (seeding_replaces_the_catalogue
           (fun k => String (Ascii.ascii_of_nat (48 + k)) "")
           Sample.db_empty Sample.new_claim Sample2.bob_user "t-1" 9%Z).
  simpl. intros H.
  repeat (apply elem_of_cons in H as [H|H]; [discriminate H|]).
  by apply elem_of_nil in H.
Defined.

(** ** Authentication failures *)

Lemma get_current_user_refused token db :
  (forall user_id, token = Some user_id -> balance db user_id = None) ->
  exists detail, get_current_user token db = (db, HTTPException 401 detail).
Proof.
  intros H. destruct token as [user_id|]; [|by eexists].
  specialize (H user_id eq_refl). unfold balance in H.
  unfold get_current_user, bind, query.
  destruct (find_one (user_has_id user_id) (users db)); [done|by eexists].
Qed.

(** X20: without a valid token nothing happens. A request whose token does
    not decode, or names a user that is not stored, is answered 401 by the
    claim, redemption and manual verification routes alike, and the
    database is left as it was. *)
Theorem unauthenticated_requests_are_refused
    (token : Token) (db : DB)
    (transaction : TransactionCreate.t) (redemption : RedemptionRequestCreate.t)
    (transaction_id : string) (status : TransactionStatus.t)
    (notes : option string) (uuid4 : string) (utcnow : datetime) :
  (forall user_id, token = Some user_id -> balance db user_id = None) ->
  exists detail,
    post_transactions token transaction uuid4 utcnow db
    = (db, HTTPException 401 detail)
    /\ post_redemptions token redemption uuid4 utcnow db
       = (db, HTTPException 401 detail)
    /\ put_admin_verify token transaction_id status notes utcnow db
       = (db, HTTPException 401 detail).
Proof.
  intros H. destruct (get_current_user_refused token db H) as [detail Hg].
  exists detail.
  unfold post_transactions, post_redemptions, put_admin_verify, bind.
  by rewrite Hg.
Qed.

Lemma unauthenticated_requests_are_refused_witness :
  exists detail,
    post_transactions (Some "u-zed") Sample.new_claim "t-1" 1 Sample.db_empty
    = (Sample.db_empty, HTTPException 401 detail)
    /\ post_redemptions (Some "u-zed")
         (RedemptionRequestCreate.mk 10 RedemptionMethod.UPI None
            (Some "z@upi")) "t-1" 1 Sample.db_empty
       = (Sample.db_empty, HTTPException 401 detail)
    /\ put_admin_verify (Some "u-zed") "t-1" TransactionStatus.VERIFIED None
         1 Sample.db_empty
       = (Sample.db_empty, HTTPException 401 detail).
Proof.
  apply unauthenticated_requests_are_refused.
  intros user_id [= <-]. reflexivity.
Defined.

(** X21: an e-mail address registers once. Right after a registration
    request for an e-mail address, accepted or refused, a second
    registration under the same address is refused with 400 "Email already
    registered", whatever its name and password, and changes nothing. *)
Theorem email_registers_once
    (get_password_hash : string -> string -> string)
    (user1 user2 : UserCreate.t) (uuid1 uuid2 : string)
    (now1 now2 : datetime) (salt1 salt2 : string) (db : DB) :
  UserCreate.email user2 = UserCreate.email user1 ->
  let db1 := fst (register_user get_password_hash user1 uuid1 now1 salt1 db) in
  register_user get_password_hash user2 uuid2 now2 salt2 db1
  = (db1, HTTPException 400 "Email already registered").
Proof.
  intros Heq db1. subst db1.
  destruct (find_one (user_has_email (UserCreate.email user1)) (users db))
    as [existing|] eqn:Hf.
  - rewrite (register_user_taken _ user1 _ _ _ _ _ Hf). simpl fst.
    apply (register_user_taken _ _ _ _ _ _ existing). by rewrite Heq.
  - rewrite (register_user_free _ user1 _ _ _ _ Hf). simpl fst.
    eapply register_user_taken. rewrite Heq. simpl. unfold insert_one.
    rewrite (find_one_app_None _ _ _ Hf). simpl.
    unfold user_has_email. simpl. by rewrite bool_decide_eq_true_2.
Qed.

Lemma email_registers_once_witness :
  let db1 := fst (register_user Sample2.hash Sample2.carol "u-carol" 9 "s1"
                    Sample.db_empty) in
  register_user Sample2.hash
    (UserCreate.mk "carol@example.com" "Mallory" "another one") "u-mal" 10
    "s2" db1
  = (db1, HTTPException 400 "Email already registered").
Proof.
  apply (email_registers_once Sample2.hash Sample2.carol
           (UserCreate.mk "carol@example.com" "Mallory" "another one")).
  reflexivity.
Defined.

(** ** What verification and redemption leave alone *)

Lemma update_one_split {D} (q : D -> bool) (upd : D -> D) (c : list D) d :
  find_one q c = Some d ->
  exists pre post, c = pre ++ d :: post
                   /\ update_one q upd c = pre ++ upd d :: post.
Proof.
  induction c as [|d' c IH]; simpl; [done|].
  destruct (q d') eqn:E.
  - intros [= ->]. by exists [], c.
  - intros H. destruct (IH H) as (pre & post & -> & ->).
    by exists (d' :: pre), post.
Qed.

(** X22: a verification rewrites one transaction and none of its claim
    fields. A webhook delivery or a manual verification request either
    leaves the transactions as they are or replaces exactly one of them,
    in place, by a transaction with the same id, owner, product, order id,
    amount, cashback amount, screenshot and creation time. *)
Theorem verification_rewrites_one_transaction (db : DB) (r : Request) :
  is_verification r = true ->
  transactions (serve db r) = transactions db
  \/ exists pre t t' post,
       transactions db = pre ++ t :: post
       /\ transactions (serve db r) = pre ++ t' :: post
       /\ claim_facts t' = claim_facts t.
Proof.
  destruct r as [token transaction uuid4 utcnow
                |token redemption uuid4 utcnow
                |payload utcnow
                |token transaction_id status notes utcnow]; try done;
    intros _; simpl.
  - destruct (truthy (payload !! "amazon_order_id")) eqn:Ht.
    2:{ left. by rewrite webhook_missing. }
    destruct (payload !! "amazon_order_id") as [v|] eqn:Hv; [|done].
    destruct (find_one (transaction_has_order v) (transactions db))
      as [t|] eqn:Hf.
    + right. rewrite (webhook_match _ _ _ _ _ Hv Ht Hf). simpl.
      destruct (update_one_split _ (set_webhook_verified utcnow) _ _ Hf)
        as (pre & post & Hc & ->).
      by exists pre, t, (set_webhook_verified utcnow t), post.
    + left. by rewrite (webhook_no_match _ _ _ _ Hv Ht Hf).
  - unfold put_admin_verify, bind.
    authenticate token db current_user; [|by left].
    destruct (find_one (transaction_has_id transaction_id) (transactions db))
      as [t|] eqn:Hf.
    + right. rewrite (admin_found _ _ _ _ _ _ _ Hf).
      destruct (update_one_split _ (set_update_data status notes utcnow) _ _
                  Hf) as (pre & post & Hc & Hupd).
      exists pre, t, (set_update_data status notes utcnow t), post.
      split; [done|]. split; [|done]. by destruct status.
    + left. by rewrite admin_not_found.
Qed.

Lemma verification_rewrites_one_transaction_witness :
  transactions (serve Sample2.db_duplicate (PostWebhook Sample.delivery 7))
  = transactions Sample2.db_duplicate
  \/ exists pre t t' post,
       transactions Sample2.db_duplicate = pre ++ t :: post
       /\ transactions
            (serve Sample2.db_duplicate (PostWebhook Sample.delivery 7))
          = pre ++ t' :: post
       /\ claim_facts t' = claim_facts t.
Proof.
  apply verification_rewrites_one_transaction. reflexivity.
Defined.

Lemma serve_redemption_requests db r :
  exists later,
    redemption_requests (serve db r) = redemption_requests db ++ later
    /\ Forall awaiting_payout later.
Proof.
  destruct r as [token transaction uuid4 utcnow
                |token redemption uuid4 utcnow
                |payload utcnow
                |token transaction_id status notes utcnow]; simpl.
  - exists []. rewrite app_nil_r. split; [|done].
    unfold post_transactions, bind.
    authenticate token db current_user; [|done].
    unfold create_transaction, bind, query.
    by destruct (find_one _ _).
  - unfold post_redemptions, bind.
    authenticate token db current_user.
    2:{ exists []. by rewrite app_nil_r. }
    destruct (redemption_paths redemption current_user)
      as [H|[[H Hd]|[H Hd]]].
    + rewrite redemption_insufficient by done.
      exists []. by rewrite app_nil_r.
    + rewrite redemption_no_destination by done.
      exists []. by rewrite app_nil_r.
    + destruct (redemption_accepted redemption current_user uuid4 utcnow db
                  H Hd) as (new & -> & ->).
      eexists [_]. split; [reflexivity|]. by repeat constructor.
  - exists []. rewrite app_nil_r. split; [|done].
    unfold amazon_associates_webhook, bind, query.
    destruct (negb _); [done|]. by destruct (find_one _ _).
  - exists []. rewrite app_nil_r. split; [|done].
    unfold put_admin_verify, bind.
    authenticate token db current_user; [|done].
    unfold admin_verify_transaction, bind, query.
    destruct (find_one _ _); [|done]. by destruct status.
Qed.

(** X23: stored redemption requests are never processed. Through any
    sequence of claims, redemption requests, webhook deliveries and manual
    verifications, the redemption requests already stored stay exactly as
    they are, and every request added is PENDING with no processing time:
    no route advances or refunds a redemption. *)
Theorem redemption_requests_are_never_processed (rs : list Request) (db : DB) :
  exists later,
    redemption_requests (serve_all rs db) = redemption_requests db ++ later
    /\ Forall awaiting_payout later.
Proof.
  revert db. induction rs as [|r rs IH]; intros db.
  - exists []. by rewrite app_nil_r.
  - unfold serve_all. simpl.
    destruct (serve_redemption_requests db r) as (l1 & H1 & F1).
    destruct (IH (serve db r)) as (l2 & H2 & F2). unfold serve_all in H2.
    exists (l1 ++ l2). split.
    + by rewrite H2, H1, app_assoc.
    + by apply Forall_app.
Qed.

Lemma Forall_update_one {D} (P : D -> Prop) q upd (c : list D) :
  (forall d, P (upd d)) -> Forall P c -> Forall P (update_one q upd c).
Proof.
  intros Hupd. induction 1 as [|d c Hd Hc IH]; simpl; [done|].
  destruct (q d); constructor; auto.
Qed.

Lemma serve_verification_recorded db r :
  Forall verification_recorded (transactions db) ->
  Forall verification_recorded (transactions (serve db r)).
Proof.
  intros Hinv.
  destruct r as [token transaction uuid4 utcnow
                |token redemption uuid4 utcnow
                |payload utcnow
                |token transaction_id status notes utcnow]; simpl.
  - unfold post_transactions, bind.
    authenticate token db current_user; [|done].
    unfold create_transaction, bind, query.
    destruct (find_one _ _); [|done]. simpl. unfold insert_one.
    apply Forall_app. split; [done|]. constructor; [|done].
    intros Hs. by simpl in Hs.
  - unfold post_redemptions, bind.
    authenticate token db current_user; [|done].
    unfold create_redemption_request.
    destruct (Qltb _ _); [done|].
    destruct (RedemptionRequestCreate.method redemption);
      destruct (truthy_str _); done.
  - destruct (webhook_transactions payload utcnow db) as [->|[v ->]];
      [done|].
    apply Forall_update_one; [|done].
    intros t _. simpl. split; [done|by left].
  - unfold put_admin_verify, bind.
    authenticate token db current_user; [|done].
    destruct (find_one (transaction_has_id transaction_id) (transactions db))
      as [t|] eqn:Hf.
    + rewrite (admin_found _ _ _ _ _ _ _ Hf).
      assert (Forall verification_recorded
                (update_one (transaction_has_id transaction_id)
                   (set_update_data status notes utcnow) (transactions db))).
      { apply Forall_update_one; [|done].
        intros t' _. simpl. split; [done|by right]. }
      by destruct status.
    + by rewrite admin_not_found.
Qed.

(** X24: a transaction that has left PENDING carries its verification.
    If every stored transaction whose status is not PENDING has a
    verification time and the method WEBHOOK or MANUAL, that still holds
    after any sequence of claims, redemption requests, webhook deliveries
    and manual verifications. *)
Theorem verification_is_always_recorded (rs : list Request) (db : DB) :
  Forall verification_recorded (transactions db) ->
  Forall verification_recorded (transactions (serve_all rs db)).
Proof.
  revert db. induction rs as [|r rs IH]; intros db Hinv; [done|].
  unfold serve_all. simpl. apply IH. by apply serve_verification_recorded.
Qed.

Lemma verification_is_always_recorded_witness :
  Forall verification_recorded
    (transactions
       (serve_all [PostWebhook Sample.delivery 7;
                   PutAdminVerify (Some "u-bob") "t-1"
                     TransactionStatus.REJECTED None 8]
                  (Sample.db_with TransactionStatus.PENDING))).
Proof.
  apply verification_is_always_recorded.
  constructor; [|constructor]. intros H. by simpl in H.
Defined.

(** X25: a claim alone earns nothing. Any sequence of claim submissions,
    accepted or refused, leaves every user record, and so every balance,
    as it was. *)
Theorem claims_change_no_balance (rs : list Request) (db : DB) :
  Forall (fun r => is_claim r = true) rs ->
  users (serve_all rs db) = users db.
Proof.
  revert db. induction rs as [|r rs IH]; intros db Hrs; [done|].
  apply Forall_cons in Hrs as [Hr Hrs].
  unfold serve_all. simpl. fold (serve_all rs (serve db r)).
  rewrite (IH _ Hrs).
  destruct r as [token transaction uuid4 utcnow| | |]; try done. simpl.
  unfold post_transactions, bind.
  authenticate token db current_user; [|done].
  unfold create_transaction, bind, query.
  by destruct (find_one _ _).
Qed.

Lemma claims_change_no_balance_witness :
  users (serve_all [PostTransactions (Some "u-bob") Sample.new_claim "t-1" 1;
                    PostTransactions (Some "u-bob") Sample.new_claim "t-2" 2]
                   Sample.db_empty)
  = users Sample.db_empty.
Proof.
  apply claims_change_no_balance. repeat constructor.
Defined.

(** * Properties with binary64 amounts *)

(** ** What the handlers do on floats *)

Lemma float_balance_inc_same db i delta b :
  Float.balance db i = Some b ->
  Float.balance
    (Float.set_users
       (update_one (Float.user_has_id i) (Float.inc_cashback_balance delta))
       db) i
  = Some (Float.add b delta).
Proof.
  unfold Float.balance. simpl. intros H.
  rewrite find_one_update_one by done.
  destruct (find_one (Float.user_has_id i) (Float.users db)) as [u|];
    simpl in *; [|done].
  by inversion H.
Qed.

Lemma float_get_current_user_found db user_id u :
  find_one (Float.user_has_id user_id) (Float.users db) = Some u ->
  Float.get_current_user (Some user_id) db = (db, OK (Float.User_of_doc u)).
Proof.
  intros H. unfold Float.get_current_user, Float.bind, Float.query, Float.ret.
  by rewrite H.
Qed.

Lemma float_get_current_user_state token db :
  fst (Float.get_current_user token db) = db.
Proof.
  destruct token as [user_id|]; [|done].
  unfold Float.get_current_user, Float.bind, Float.query. simpl.
  by destruct (find_one _ _).
Qed.

Ltac float_authenticate token db u :=
  let db1 := fresh "db" in
  let Hg := fresh "Hg" in
  let Hs := fresh "Hs" in
  destruct (Float.get_current_user token db) as [db1 [u|? ?]] eqn:Hg;
  pose proof (float_get_current_user_state token db) as Hs;
  rewrite Hg in Hs; simpl in Hs; subst db1.

Lemma float_post_redemptions_as_user user_id redemption uuid4 utcnow db b :
  Float.balance db user_id = Some b ->
  exists u,
    Float.UserDoc.id u = user_id
    /\ Float.UserDoc.cashback_balance u = b
    /\ Float.post_redemptions (Some user_id) redemption uuid4 utcnow db
       = Float.create_redemption_request redemption (Float.User_of_doc u)
           uuid4 utcnow db.
Proof.
  unfold Float.balance. intros Hb.
  destruct (find_one (Float.user_has_id user_id) (Float.users db))
    as [u|] eqn:Hu; [|done].
  exists u. simpl in Hb. injection Hb as Hb.
  destruct (find_one_Some _ _ _ Hu) as [Hid _].
  apply bool_decide_eq_true in Hid. repeat split; try done.
  unfold Float.post_redemptions, Float.bind.
  by rewrite (float_get_current_user_found _ _ _ Hu).
Qed.

Lemma float_redemption_accepted redemption current_user uuid4 utcnow db :
  Float.lt (Float.User.cashback_balance current_user)
           (Float.RedemptionRequestCreate.amount redemption) = false ->
  Float.destination_given redemption = true ->
  Float.create_redemption_request redemption current_user uuid4 utcnow db
  = (Float.set_redemption_requests
       (insert_one
          (Float.RedemptionRequest.mk uuid4 (Float.User.id current_user)
             (Float.RedemptionRequestCreate.amount redemption)
             (Float.RedemptionRequestCreate.method redemption)
             RedemptionStatus.PENDING
             (Float.RedemptionRequestCreate.bank_account_id redemption)
             (Float.RedemptionRequestCreate.upi_id redemption)
             None utcnow None))
       (Float.set_users
          (update_one (Float.user_has_id (Float.User.id current_user))
             (Float.inc_cashback_balance
                (Float.neg (Float.RedemptionRequestCreate.amount redemption))))
          db),
     OK (Float.RedemptionRequest.mk uuid4 (Float.User.id current_user)
           (Float.RedemptionRequestCreate.amount redemption)
           (Float.RedemptionRequestCreate.method redemption)
           RedemptionStatus.PENDING
           (Float.RedemptionRequestCreate.bank_account_id redemption)
           (Float.RedemptionRequestCreate.upi_id redemption)
           None utcnow None)).
Proof.
  intros Hlt Hd.
  unfold Float.create_redemption_request, Float.destination_given in *.
  rewrite Hlt.
  destruct (Float.RedemptionRequestCreate.method redemption); by rewrite Hd.
Qed.

(** A balance that is at least zero is not below an amount that is at
    most zero: the guard of the handler lets such a request through. *)
Lemma float_nonnegative_not_below_nonpositive (b a : Float.float) :
  Float.le Float.zero b = true ->
  Float.le a Float.zero = true ->
  Float.lt b a = false.
Proof.
  unfold Float.le, Float.lt, Float.zero, SFleb, SFltb.
  destruct b as [sb|sb| |sb mb eb], a as [sa|sa| |sa ma ea]; simpl;
    try done; try destruct sb; try destruct sa; simpl; done.
Qed.

Lemma float_create_transaction_no_product transaction current_user uuid4
    utcnow db :
  find_one (Float.product_has_id
              (Float.TransactionCreate.product_id transaction))
           (Float.products db) = None ->
  Float.create_transaction transaction current_user uuid4 utcnow db
  = (db, HTTPException 404 "Product not found").
Proof.
  intros Hp. unfold Float.create_transaction, Float.bind, Float.query.
  by rewrite Hp.
Qed.

Lemma float_create_transaction_product transaction current_user uuid4 utcnow
    db product :
  find_one (Float.product_has_id
              (Float.TransactionCreate.product_id transaction))
           (Float.products db) = Some product ->
  Float.create_transaction transaction current_user uuid4 utcnow db
  = (Float.set_transactions
       (insert_one
          (Float.Transaction.mk uuid4 (Float.User.id current_user)
             (Float.TransactionCreate.product_id transaction)
             (Float.TransactionCreate.amazon_order_id transaction)
             (Float.TransactionCreate.amount transaction)
             (Float.div
                (Float.mul (Float.TransactionCreate.amount transaction)
                           (Float.Product.cashback_percent product))
                (Float.of_Z 100))
             TransactionStatus.PENDING
             (Some (Float.TransactionCreate.verification_method transaction))
             None None
             (Float.TransactionCreate.screenshot_url transaction)
             utcnow)) db,
     OK (Float.Transaction.mk uuid4 (Float.User.id current_user)
           (Float.TransactionCreate.product_id transaction)
           (Float.TransactionCreate.amazon_order_id transaction)
           (Float.TransactionCreate.amount transaction)
           (Float.div
              (Float.mul (Float.TransactionCreate.amount transaction)
                         (Float.Product.cashback_percent product))
              (Float.of_Z 100))
           TransactionStatus.PENDING
           (Some (Float.TransactionCreate.verification_method transaction))
           None None
           (Float.TransactionCreate.screenshot_url transaction)
           utcnow)).
Proof.
  intros Hp. unfold Float.create_transaction, Float.bind, Float.query.
  by rewrite Hp.
Qed.

(** No request rewrites the identifier or the cashback amount of a stored
    transaction; a request can only add transactions after them. *)
Lemma float_ledger_update q upd db :
  (forall t, Float.Transaction.id (upd t) = Float.Transaction.id t
             /\ Float.Transaction.cashback_amount (upd t)
                = Float.Transaction.cashback_amount t) ->
  Float.cashback_ledger (Float.set_transactions (update_one q upd) db)
  = Float.cashback_ledger db.
Proof.
  intros H. unfold Float.cashback_ledger. simpl. apply map_update_one.
  intros t. destruct (H t) as [-> ->]. done.
Qed.

Lemma float_serve_extends_ledger db r :
  exists later,
    Float.cashback_ledger (Float.serve db r)
    = Float.cashback_ledger db ++ later.
Proof.
  destruct r as [token transaction uuid4 utcnow
                |token redemption uuid4 utcnow
                |payload utcnow
                |token transaction_id status notes utcnow]; simpl.
  - unfold Float.post_transactions, Float.bind.
    float_authenticate token db current_user.
    2:{ exists []. by rewrite app_nil_r. }
    destruct (find_one
                (Float.product_has_id
                   (Float.TransactionCreate.product_id transaction))
                (Float.products db)) as [product|] eqn:Hp.
    + rewrite (float_create_transaction_product _ _ _ _ _ _ Hp).
      eexists [_]. unfold Float.cashback_ledger, insert_one. simpl.
      rewrite map_app. reflexivity.
    + rewrite float_create_transaction_no_product by done.
      exists []. by rewrite app_nil_r.
  - exists []. rewrite app_nil_r. unfold Float.cashback_ledger. f_equal.
    unfold Float.post_redemptions, Float.bind.
    float_authenticate token db current_user; [|done].
    unfold Float.create_redemption_request.
    destruct (Float.lt _ _); [done|].
    destruct (Float.RedemptionRequestCreate.method redemption);
      destruct (truthy_str _); done.
  - exists []. rewrite app_nil_r.
    unfold Float.amazon_associates_webhook, Float.bind, Float.query.
    destruct (negb _); [done|].
    destruct (find_one _ _) as [t|]; [|done]. simpl.
    change (Float.cashback_ledger (Float.set_users ?f ?d))
      with (Float.cashback_ledger d).
    by apply float_ledger_update.
  - exists []. rewrite app_nil_r.
    unfold Float.put_admin_verify, Float.bind.
    float_authenticate token db current_user; [|done].
    unfold Float.admin_verify_transaction, Float.bind, Float.query.
    destruct (find_one _ _) as [t|]; [|done].
    destruct status; simpl;
      try change (Float.cashback_ledger (Float.set_users ?f ?d))
            with (Float.cashback_ledger d);
      by apply float_ledger_update.
Qed.

Lemma float_serve_all_extends_ledger rs db :
  exists later,
    Float.cashback_ledger (Float.serve_all rs db)
    = Float.cashback_ledger db ++ later.
Proof.
  revert db. induction rs as [|r rs IH]; intros db.
  - exists []. by rewrite app_nil_r.
  - unfold Float.serve_all. simpl.
    destruct (float_serve_extends_ledger db r) as [l1 H1].
    destruct (IH (Float.serve db r)) as [l2 H2].
    unfold Float.serve_all in H2.
    exists (l1 ++ l2). by rewrite H2, H1, app_assoc.
Qed.

(** ** Redemption requests with float amounts *)

(** C3 fails on the code: the guard [balance < amount] is false for a NaN
    amount, so a redemption request with amount NaN from a user whose
    balance is 30 is accepted and stored, and the [$inc] leaves the balance
    NaN, which is not at least zero. An amount of -Infinity followed by an
    amount of Infinity does the same through a balance of Infinity. *)
Theorem nan_amount_leaves_balance_not_nonnegative :
  let r := Float.post_redemptions (Some "u-bob")
             (Float.upi_redemption Float.nan) "r-1" 3 Float.db0 in
  let r1 := Float.post_redemptions (Some "u-bob")
              (Float.upi_redemption (S754_infinity true)) "r-1" 3
              Float.db0 in
  let r2 := Float.post_redemptions (Some "u-bob")
              (Float.upi_redemption (S754_infinity false)) "r-2" 4
              (fst r1) in
  Float.balance Float.db0 "u-bob" = Some (Float.of_Z 30)
  /\ Float.le Float.zero (Float.of_Z 30) = true
  /\ snd r = OK (Float.RedemptionRequest.mk "r-1" "u-bob" Float.nan
                   RedemptionMethod.UPI RedemptionStatus.PENDING None
                   (Some "bob@upi") None 3 None)
  /\ Float.balance (fst r) "u-bob" = Some Float.nan
  /\ Float.le Float.zero Float.nan = false
  /\ failed (snd r1) = false
  /\ Float.balance (fst r1) "u-bob" = Some (S754_infinity false)
  /\ failed (snd r2) = false
  /\ Float.balance (fst r2) "u-bob" = Some Float.nan.
Proof. vm_compute. repeat split. Qed.

(** C5 fails on the code: an amount of -50 is accepted, the request is
    stored, and the balance goes from 30 to 80; an amount of 0 is accepted
    too. *)
Lemma negative_amount_is_accepted_and_credited :
  let r := Float.post_redemptions (Some "u-bob")
             (Float.upi_redemption (Float.of_Z (-50))) "r-1" 3 Float.db0 in
  let r0 := Float.post_redemptions (Some "u-bob")
              (Float.upi_redemption Float.zero) "r-1" 3 Float.db0 in
  Float.balance Float.db0 "u-bob" = Some (Float.of_Z 30)
  /\ snd r = OK (Float.RedemptionRequest.mk "r-1" "u-bob" (Float.of_Z (-50))
                   RedemptionMethod.UPI RedemptionStatus.PENDING None
                   (Some "bob@upi") None 3 None)
  /\ length (Float.redemption_requests (fst r)) = 1
  /\ Float.balance (fst r) "u-bob" = Some (Float.of_Z 80)
  /\ snd r0 = OK (Float.RedemptionRequest.mk "r-1" "u-bob" Float.zero
                    RedemptionMethod.UPI RedemptionStatus.PENDING None
                    (Some "bob@upi") None 3 None).
Proof. vm_compute. repeat split. Qed.

(** C5, as the code has it: the sign of the amount is not validated. For
    an authenticated user whose balance is at least zero, a request with an
    amount of zero or less and its destination given succeeds: a PENDING
    request of the caller with that amount is appended to the stored
    redemption requests and returned, and the balance becomes the float sum
    of the balance and the negated amount. *)
Theorem amount_sign_is_not_validated
    (user_id : string) (redemption : Float.RedemptionRequestCreate.t)
    (uuid4 : string) (utcnow : datetime) (db : Float.DB) (b : Float.float) :
  Float.balance db user_id = Some b ->
  Float.le Float.zero b = true ->
  Float.le (Float.RedemptionRequestCreate.amount redemption) Float.zero
  = true ->
  Float.destination_given redemption = true ->
  let r := Float.post_redemptions (Some user_id) redemption uuid4 utcnow db in
  exists new_redemption,
    snd r = OK new_redemption
    /\ Float.RedemptionRequest.user_id new_redemption = user_id
    /\ Float.RedemptionRequest.amount new_redemption
       = Float.RedemptionRequestCreate.amount redemption
    /\ Float.RedemptionRequest.status new_redemption
       = RedemptionStatus.PENDING
    /\ Float.redemption_requests (fst r)
       = Float.redemption_requests db ++ [new_redemption]
    /\ Float.balance (fst r) user_id
       = Some (Float.add b
                 (Float.neg (Float.RedemptionRequestCreate.amount redemption))).
Proof.
  intros Hb Hnn Hamt Hd r. subst r.
  destruct (float_post_redemptions_as_user user_id redemption uuid4 utcnow
              db b Hb) as (u & Hid & Hbal & ->).
  rewrite float_redemption_accepted; [|simpl; rewrite Hbal|done].
  2:{ by apply float_nonnegative_not_below_nonpositive. }
  eexists. split; [reflexivity|]. simpl. repeat split; try done.
  rewrite Hid.
  change (Float.balance (Float.set_redemption_requests ?f ?d) user_id)
    with (Float.balance d user_id).
  by apply float_balance_inc_same.
Qed.

Lemma amount_sign_is_not_validated_witness :
  let redemption := Float.upi_redemption (Float.of_Z (-50)) in
  let r := Float.post_redemptions (Some "u-bob") redemption "r-1" 3
             Float.db0 in
  exists new_redemption,
    snd r = OK new_redemption
    /\ Float.RedemptionRequest.user_id new_redemption = "u-bob"
    /\ Float.RedemptionRequest.amount new_redemption = Float.of_Z (-50)
    /\ Float.RedemptionRequest.status new_redemption
       = RedemptionStatus.PENDING
    /\ Float.redemption_requests (fst r)
       = Float.redemption_requests Float.db0 ++ [new_redemption]
    /\ Float.balance (fst r) "u-bob"
       = Some (Float.add (Float.of_Z 30) (Float.neg (Float.of_Z (-50)))).
Proof.
  apply (amount_sign_is_not_validated "u-bob"
           (Float.upi_redemption (Float.of_Z (-50))) "r-1" 3%Z Float.db0
           (Float.of_Z 30)); reflexivity.
Defined.

(** ** Claims with float amounts *)

(** C7 fails on the code as an exact equation: for the amount 49.99 at 5
    percent the stored cashback amount is the float 2.4995000000000003,
    which is neither the rational amount * 5 / 100 nor the float 2.4995:
    the product and the quotient are each rounded. *)
Lemma cashback_of_49_99_at_5_percent_is_rounded :
  let r := Float.create_transaction (Float.claim_of Float.price_49_99)
             (Float.User_of_doc Float.bob) "t-1" 1 Float.db0 in
  exists t amount percent cashback,
    snd r = OK t
    /\ Float.to_Q (Float.Transaction.amount t) = Some amount
    /\ Float.to_Q (Float.Product.cashback_percent Float.echo_dot)
       = Some percent
    /\ (percent == 5)%Q
    /\ Float.to_Q (Float.Transaction.cashback_amount t) = Some cashback
    /\ ~ (cashback == amount * percent / 100)%Q
    /\ Float.Transaction.cashback_amount t
       <> Float.div (Float.of_Z 24995) (Float.of_Z 10000).
Proof.
  vm_compute. do 4 eexists.
  split; [reflexivity|]. split; [reflexivity|]. split; [reflexivity|].
  split; [reflexivity|]. split; [reflexivity|].
  split; discriminate.
Qed.

(** C7, as the code has it: submitting a claim for an absent product
    raises 404 "Product not found" and stores nothing; for a stored product
    it appends to the stored transactions, and returns, a PENDING
    transaction whose cashback amount is the float quotient by 100 of the
    float product of the amount and the product's cashback percent (for
    100 at 5 percent: exactly 5.0); and no later sequence of requests
    changes the identifier or cashback amount of any stored transaction. *)
Theorem claim_cashback_is_rounded_and_fixed
    (transaction : Float.TransactionCreate.t) (current_user : Float.User.t)
    (uuid4 : string) (utcnow : datetime) (db : Float.DB) :
  let r := Float.create_transaction transaction current_user uuid4 utcnow db in
  (find_one (Float.product_has_id
               (Float.TransactionCreate.product_id transaction))
            (Float.products db) = None ->
   r = (db, HTTPException 404 "Product not found"))
  /\ (forall product,
        find_one (Float.product_has_id
                    (Float.TransactionCreate.product_id transaction))
                 (Float.products db) = Some product ->
        exists t,
          snd r = OK t
          /\ Float.transactions (fst r) = Float.transactions db ++ [t]
          /\ Float.Transaction.status t = TransactionStatus.PENDING
          /\ Float.Transaction.cashback_amount t
             = Float.div
                 (Float.mul (Float.TransactionCreate.amount transaction)
                            (Float.Product.cashback_percent product))
                 (Float.of_Z 100)
          /\ (Float.TransactionCreate.amount transaction = Float.of_Z 100 ->
              Float.Product.cashback_percent product = Float.of_Z 5 ->
              Float.Transaction.cashback_amount t = Float.of_Z 5))
  /\ (forall rs, exists later,
        Float.cashback_ledger (Float.serve_all rs (fst r))
        = Float.cashback_ledger (fst r) ++ later).
Proof.
  intros r. subst r. split; [|split].
  - apply float_create_transaction_no_product.
  - intros product Hp.
    rewrite (float_create_transaction_product _ _ _ _ _ _ Hp).
    eexists. split; [reflexivity|]. simpl. repeat split.
    intros -> ->. vm_compute. reflexivity.
  - intros rs. apply float_serve_all_extends_ledger.
Qed.

Lemma claim_cashback_is_rounded_and_fixed_witness :
  let r := Float.create_transaction (Float.claim_of (Float.of_Z 100))
             (Float.User_of_doc Float.bob) "t-1" 1 Float.db0 in
  exists t,
    snd r = OK t
    /\ Float.transactions (fst r) = Float.transactions Float.db0 ++ [t]
    /\ Float.Transaction.status t = TransactionStatus.PENDING
    /\ Float.Transaction.cashback_amount t = Float.of_Z 5.
Proof.
  destruct (claim_cashback_is_rounded_and_fixed
              (Float.claim_of (Float.of_Z 100)) (Float.User_of_doc Float.bob)
              "t-1" 1%Z Float.db0) as (_ & Hfound & _).
  destruct (Hfound Float.echo_dot eq_refl) as (t & Hr & Hts & Hs & _ & H5).
  exists t. repeat split; try assumption.
  apply H5; reflexivity.
Defined.
